(** * NPKSensorArduino: Modbus RTU polling of a soil NPK sensor

    Shallow embedding of the two Arduino sketches of the repository,

    - [sketch_jul23a.ino], which hand-rolls the request frames and reads the
      answer byte by byte from a [SoftwareSerial] port, and
    - [sketch_jul28a.ino], which delegates the transaction to the
      [ModbusMaster] library and scales the register it gets back,

    together with the properties that the specification states about them.

    Conventions.  A [byte], a [uint8_t], a [uint16_t] and an [int] are
    integers of [Z] with the wrap-around of each conversion written out.  A
    [float] is an IEEE 754 binary32 number ([spec_float] with 24 bits of
    precision), which is also what [double] is on the AVR boards the sketches
    name.  The serial port, the pins and the library are the environment: the
    state records what the coming calls will answer and a trace of what the
    sketch did. *)

From Stdlib Require Import ZArith QArith Qabs Lia Bool String.
From Stdlib Require Import Floats.SpecFloat.
From stdpp Require Import base option list gmap.

Local Open Scope Z_scope.

(* ===================================================================== *)
(** * The wire format: CRC16 and the request frame *)
(* ===================================================================== *)

Module Crc16.

(** Modelled from the spec: one shift-right step of the CRC16 engine, which
    lives in the [ModbusMaster] library, outside the repository.  Section
    4.1 fixes the engine: initial register 0xFFFF, polynomial 0xA001,
    bit-reflected, one byte at a time, 8 shift-right steps per byte, XOR
    with the polynomial when the shifted-out bit is 1. *)
Definition shift_step (crc : Z) : Z :=
  if Z.testbit crc 0
  then Z.lxor (Z.shiftr crc 1) 0xA001
  else Z.shiftr crc 1.

(** [n] shift-right steps. *)
Fixpoint shift_steps (n : nat) (crc : Z) : Z :=
  match n with
  | O => crc
  | S k => shift_steps k (shift_step crc)
  end.

(** One byte: XOR it into the register, then 8 steps. *)
Definition update (crc byte : Z) : Z :=
  shift_steps 8 (Z.lxor crc byte).

(** Modelled from the spec: [compute] of the CRC16 engine (Section 4.1),
    from the initial register 0xFFFF over the bytes in order. *)
Definition compute (bytes : list Z) : Z :=
  fold_left update bytes 0xFFFF.

(** The two bytes of a CRC in the order they travel: low byte first. *)
Definition lo (crc : Z) : Z := Z.land crc 0xFF.
Definition hi (crc : Z) : Z := Z.land (Z.shiftr crc 8) 0xFF.
Definition little_endian (crc : Z) : list Z := [lo crc; hi crc].

(** Modelled from the spec: [verify] recomputes the CRC over all bytes but
    the last two and compares it with the trailing two bytes read
    little-endian (Section 4.1). *)
Definition verify (frame : list Z) : bool :=
  let n := (length frame - 2)%nat in
  bool_decide (drop n frame = little_endian (compute (take n frame))).

End Crc16.

(** A logical request (Section 3 of the specification). *)
Record Request := mkRequest {
  slave_address : Z;
  function_code : Z;
  start_register : Z;
  register_count : Z
}.

#[global] Instance Request_eq_dec : EqDecision Request.
Proof. solve_decision. Defined.

Module FrameCodec.

(** Modelled from the spec: the six header bytes of a request frame, the
    register address and the register count big-endian (Section 3). *)
Definition header (req : Request) : list Z :=
  [ slave_address req; function_code req;
    Z.land (Z.shiftr (start_register req) 8) 0xFF;
    Z.land (start_register req) 0xFF;
    Z.land (Z.shiftr (register_count req) 8) 0xFF;
    Z.land (register_count req) 0xFF ].

(** Modelled from the spec: [build_request] serialises the header fields
    and appends the CRC16 of these six bytes, low byte first (Section
    4.2).  In [sketch_jul28a] this happens inside [ModbusMaster]. *)
Definition build_request (req : Request) : list Z :=
  header req ++ Crc16.little_endian (Crc16.compute (header req)).

(** The request that an 8-byte frame carries: the inverse of [header]. *)
Definition request_of_frame (frame : list Z) : option Request :=
  match frame with
  | [a; f; sh; sl; ch; cl; _; _] =>
      Some (mkRequest a f (Z.lor (Z.shiftl sh 8) sl) (Z.lor (Z.shiftl ch 8) cl))
  | _ => None
  end.

(** Modelled from the spec: a big-endian 16-bit register from its two
    payload bytes (Section 4.2, step 5). *)
Definition word (hi lo : Z) : Z := Z.lor (Z.shiftl hi 8) lo.

(** Modelled from the spec: the length of the answer to a request for
    [count] registers (Section 3, Frame). *)
Definition response_length (count : Z) : Z := 5 + 2 * count.

End FrameCodec.

(** The six quantities that the sensor reports. *)
Inductive ParameterId :=
| Nitrogen | Phosphorus | Potassium | Electroconductivity | PH | Temperature.

#[global] Instance ParameterId_eq_dec : EqDecision ParameterId.
Proof. solve_decision. Defined.

(* ===================================================================== *)
(** * The board: pins, delays and serial ports as a trace *)
(* ===================================================================== *)

Module Arduino.

Inductive level := LOW | HIGH.

#[global] Instance level_eq_dec : EqDecision level.
Proof. solve_decision. Defined.

(** What a sketch does to its environment, in the order it does it.
    [ModWrite] and [ModRead] carry the answer of the port; [NodeRequest]
    is one [readHoldingRegisters] call handed to the library. *)
Inductive event :=
| DigitalWrite (pin : Z) (v : level)
| Delay (ms : Z)
| ModWrite (buf : list Z) (ret : Z)
| ModRead (ret : Z)
| NodeRequest (req : Request) (ret : Z)
| SerialPrint (s : string)
| SerialPrintln (s : string)
| SerialPrintByte (v : Z)
| SerialPrintHex (v : Z)
| SerialPrintlnHex (v : Z)
| SerialPrintFloat (v : spec_float).

#[global] Instance spec_float_eq_dec : EqDecision spec_float.
Proof. solve_decision. Defined.

#[global] Instance event_eq_dec : EqDecision event.
Proof. solve_decision. Defined.

(** Conversions between the integer types of the sketches. *)
Definition to_byte (z : Z) : Z := z mod 256.
Definition to_u16 (z : Z) : Z := z mod 65536.

End Arduino.

Export Arduino.

(* ===================================================================== *)
(** * sketch_jul23a.ino: hand-rolled frames over SoftwareSerial *)
(* ===================================================================== *)

Module Jul23a.

(** [#define RE 8] and [#define DE 7]. *)
Definition RE : Z := 8.
Definition DE : Z := 7.

(** The six request arrays, byte for byte. *)
Definition nitro : list Z := [0x01; 0x03; 0x00; 0x1e; 0x00; 0x01; 0xe4; 0x0c].
Definition phos : list Z := [0x01; 0x03; 0x00; 0x1f; 0x00; 0x01; 0xb5; 0xcc].
Definition pota : list Z := [0x01; 0x03; 0x00; 0x20; 0x00; 0x01; 0x85; 0xc0].
Definition ec : list Z := [0x01; 0x03; 0x00; 0x15; 0x00; 0x01; 0x95; 0xce].
Definition ph : list Z := [0x01; 0x03; 0x00; 0x06; 0x00; 0x01; 0x64; 0x0b].
Definition temp : list Z := [0x01; 0x03; 0x00; 0x12; 0x00; 0x02; 0x64; 0x0e].

Definition sizeof (a : list Z) : Z := Z.of_nat (length a).

(** The state that the sketch and its environment share.

    - [values] is the global [byte values[11]];
    - [pins] is the level last written to each digital pin;
    - [tx_results] lists what the coming [mod.write] calls report, a call
      beyond the list reports the full size (SoftwareSerial accepts every
      byte once begun);
    - [rx_results] lists what the coming [mod.read] calls return: a byte, or
      -1 when the receive buffer is empty, which is also the answer beyond
      the list;
    - [trace] is what happened so far, oldest first. *)
Record world := mkWorld {
  values : list Z;
  pins : gmap Z level;
  tx_results : list Z;
  rx_results : list Z;
  trace : list event
}.

(** State passing: a computation returns its result and the next state. *)
Definition M (A : Type) : Type := world -> A * world.

#[global] Instance M_ret : MRet M := fun A a w => (a, w).
#[global] Instance M_bind : MBind M :=
  fun A B f m w => let '(a, w') := m w in f a w'.

Definition emit (e : event) : M unit := fun w =>
  (tt, mkWorld (values w) (pins w) (tx_results w) (rx_results w) (trace w ++ [e])).

Definition digitalWrite (pin : Z) (v : level) : M unit := fun w =>
  (tt, mkWorld (values w) (<[pin := v]> (pins w)) (tx_results w) (rx_results w)
               (trace w ++ [DigitalWrite pin v])).

Definition delay (ms : Z) : M unit := emit (Delay ms).

(** [mod.write(buf, size)]: the number of bytes that the port accepted. *)
Definition mod_write (buf : list Z) (size : Z) : M Z := fun w =>
  let sent := take (Z.to_nat size) buf in
  match tx_results w with
  | [] => (size, mkWorld (values w) (pins w) [] (rx_results w)
                         (trace w ++ [ModWrite sent size]))
  | n :: rest => (n, mkWorld (values w) (pins w) rest (rx_results w)
                             (trace w ++ [ModWrite sent n]))
  end.

(** [mod.read()]: the next received byte, or -1 when none is there. *)
Definition mod_read : M Z := fun w =>
  match rx_results w with
  | [] => (-1, mkWorld (values w) (pins w) (tx_results w) []
                       (trace w ++ [ModRead (-1)]))
  | r :: rest => (r, mkWorld (values w) (pins w) (tx_results w) rest
                             (trace w ++ [ModRead r]))
  end.

(** [values[i] = v]: the [int] is narrowed to a [byte]. *)
Definition set_value (i : nat) (v : Z) : M unit := fun w =>
  (tt, mkWorld (<[i := to_byte v]> (values w)) (pins w) (tx_results w)
               (rx_results w) (trace w)).

(** [values[i]]; every index of the sketch is below 11. *)
Definition value_at (w : world) (i : nat) : Z := default 0 (values w !! i).
Definition get_value (i : nat) : M Z := fun w => (value_at w i, w).

(** [for (byte i = lo; i < lo + count; i++) body(i)]. *)
Fixpoint for_ (count : nat) (i : nat) (body : nat -> M unit) : M unit :=
  match count with
  | O => mret tt
  | S k => body i ;; for_ k (S i) body
  end.

(** The body of the receive loop, the same in the six functions. *)
Definition read_into (i : nat) : M unit :=
  r ← mod_read;
  set_value i r ;;
  v ← get_value i;
  emit (SerialPrintHex v).

Definition nitrogen : M Z :=
  digitalWrite DE HIGH ;;
  digitalWrite RE HIGH ;;
  delay 10 ;;
  n ← mod_write nitro (sizeof nitro);
  (if n =? 8 then
     digitalWrite DE LOW ;;
     digitalWrite RE LOW ;;
     for_ 7 0 read_into ;;
     emit (SerialPrintln EmptyString)
   else mret tt) ;;
  get_value 4.

Definition phosphorous : M Z :=
  digitalWrite DE HIGH ;;
  digitalWrite RE HIGH ;;
  delay 10 ;;
  n ← mod_write phos (sizeof phos);
  (if n =? 8 then
     digitalWrite DE LOW ;;
     digitalWrite RE LOW ;;
     for_ 7 0 read_into ;;
     emit (SerialPrintln EmptyString)
   else mret tt) ;;
  get_value 4.

Definition potassium : M Z :=
  digitalWrite DE HIGH ;;
  digitalWrite RE HIGH ;;
  delay 10 ;;
  n ← mod_write pota (sizeof pota);
  (if n =? 8 then
     digitalWrite DE LOW ;;
     digitalWrite RE LOW ;;
     for_ 7 0 read_into ;;
     emit (SerialPrintln EmptyString)
   else mret tt) ;;
  get_value 4.

Definition electroconductivity : M Z :=
  digitalWrite DE HIGH ;;
  digitalWrite RE HIGH ;;
  delay 10 ;;
  n ← mod_write ec (sizeof ec);
  (if n =? 8 then
     digitalWrite DE LOW ;;
     digitalWrite RE LOW ;;
     for_ 7 0 read_into ;;
     emit (SerialPrintln EmptyString)
   else mret tt) ;;
  get_value 4.

Definition pH : M Z :=
  digitalWrite DE HIGH ;;
  digitalWrite RE HIGH ;;
  delay 10 ;;
  n ← mod_write ph (sizeof ph);
  (if n =? 8 then
     digitalWrite DE LOW ;;
     digitalWrite RE LOW ;;
     for_ 7 0 read_into ;;
     emit (SerialPrintln EmptyString)
   else mret tt) ;;
  get_value 4.

Definition temperature : M Z :=
  digitalWrite DE HIGH ;;
  digitalWrite RE HIGH ;;
  delay 10 ;;
  n ← mod_write temp (sizeof temp);
  (if n =? 8 then
     digitalWrite DE LOW ;;
     digitalWrite RE LOW ;;
     for_ 7 0 read_into ;;
     emit (SerialPrintln EmptyString)
   else mret tt) ;;
  get_value 4.

(** The readings of one pass of [loop], in the order they are taken. *)
Definition loop : M (list Z) :=
  val1 ← nitrogen;
  delay 250 ;;
  val2 ← phosphorous;
  delay 250 ;;
  val3 ← potassium;
  delay 250 ;;
  val4 ← electroconductivity;
  delay 250 ;;
  val5 ← pH;
  delay 250 ;;
  val6 ← temperature;
  emit (SerialPrint "Nitrogen: ") ;;
  emit (SerialPrintByte val1) ;;
  emit (SerialPrintln " mg/kg") ;;
  emit (SerialPrint "Phosphorous: ") ;;
  emit (SerialPrintByte val2) ;;
  emit (SerialPrintln " mg/kg") ;;
  emit (SerialPrint "Potassium: ") ;;
  emit (SerialPrintByte val3) ;;
  emit (SerialPrintln " mg/kg") ;;
  emit (SerialPrint "Electroconductivity") ;;
  emit (SerialPrintByte val4) ;;
  emit (SerialPrintln " us/cm") ;;
  emit (SerialPrint "Soil pH") ;;
  emit (SerialPrintByte val5) ;;
  emit (SerialPrintln " pH") ;;
  emit (SerialPrint "Temperature") ;;
  emit (SerialPrintByte val6) ;;
  emit (SerialPrintln " C") ;;
  delay 2000 ;;
  mret [val1; val2; val3; val4; val5; val6].

(** The state after [setup]: the buffer zeroed as a global is, the pins
    configured and not yet written. *)
Definition setup (tx rx : list Z) : world :=
  mkWorld (replicate 11 0) ∅ tx rx [Delay 500].

(** The request array and the reading function of each parameter. *)
Definition frame_of (p : ParameterId) : list Z :=
  match p with
  | Nitrogen => nitro
  | Phosphorus => phos
  | Potassium => pota
  | Electroconductivity => ec
  | PH => ph
  | Temperature => temp
  end.

Definition reader_of (p : ParameterId) : M Z :=
  match p with
  | Nitrogen => nitrogen
  | Phosphorus => phosphorous
  | Potassium => potassium
  | Electroconductivity => electroconductivity
  | PH => pH
  | Temperature => temperature
  end.

(** The six functions differ in the array only: their common shape. *)
Definition transaction (frame : list Z) : M Z :=
  digitalWrite DE HIGH ;;
  digitalWrite RE HIGH ;;
  delay 10 ;;
  n ← mod_write frame (sizeof frame);
  (if n =? 8 then
     digitalWrite DE LOW ;;
     digitalWrite RE LOW ;;
     for_ 7 0 read_into ;;
     emit (SerialPrintln EmptyString)
   else mret tt) ;;
  get_value 4.

End Jul23a.

(* ===================================================================== *)
(** * The arithmetic of [float] *)
(* ===================================================================== *)

Module Binary32.

(** IEEE 754 binary32: 24 bits of precision, infinities at exponent 128.
    On the AVR boards of the sketches a [double] has the same format, so a
    literal such as [100.0] and a division by it stay in binary32. *)
Definition prec : Z := 24.
Definition emax : Z := 128.

Definition float : Type := spec_float.

(** [(float)z] for an integer [z], and so the literal of an integer value. *)
Definition of_Z (z : Z) : float := binary_normalize prec emax z 0 false.

Definition div (x y : float) : float := SFdiv prec emax x y.
Definition mul (x y : float) : float := SFmul prec emax x y.
Definition opp (x : float) : float := SFopp x.

(** [x != y] of C: true as soon as the two do not compare equal. *)
Definition neb (x y : float) : bool := negb (SFeqb x y).

(** The real number that a float stands for (0 for the special values). *)
Definition to_Q (x : float) : Q :=
  match x with
  | S754_finite s m e =>
      ((if s then Z.neg m else Z.pos m) # 1) * Qpower (2 # 1) e
  | _ => 0%Q
  end.

(** Half the distance to the neighbouring floats of a finite float. *)
Definition half_ulp (x : float) : Q :=
  match x with
  | S754_finite _ _ e => Qpower (2 # 1) (e - 1)
  | _ => 0%Q
  end.

Definition is_finite (x : float) : bool :=
  match x with
  | S754_finite _ _ _ | S754_zero _ => true
  | _ => false
  end.

(** [x] is finite and off the real number [q] by half a unit in its last
    place at most: [q] correctly rounded, up to the choice at a tie. *)
Definition rounds (q : Q) (x : float) : bool :=
  is_finite x && Qle_bool (Qabs (to_Q x - q)) (half_ulp x).

End Binary32.

(* ===================================================================== *)
(** * sketch_jul28a.ino: the ModbusMaster library and the scaling *)
(* ===================================================================== *)

Module Jul28a.

Import Binary32.

(** [#define MAX485_DE_PIN 7] and [#define MAX485_RE_PIN 8]. *)
Definition MAX485_DE_PIN : Z := 7.
Definition MAX485_RE_PIN : Z := 8.

(** The [ModbusMaster node] object and the board around it.  The library is
    not part of the repository: what a transaction yields is the
    environment's answer.

    - [ku8MBSuccess] is the constant member that the sketch compares with;
    - [slave] is the slave id given to [node.begin];
    - [response_buffer] is the library's buffer of received registers;
    - [library k req] is what the [k]-th transaction, for request [req],
      yields: the result code and the response buffer that it leaves;
    - [transactions] counts the transactions so far;
    - [pins] and [trace] are as in the other sketch. *)
Record node := mkNode {
  ku8MBSuccess : Z;
  slave : Z;
  response_buffer : list Z;
  library : nat -> Request -> Z * list Z;
  transactions : nat;
  pins : gmap Z level;
  trace : list event
}.

Definition M (A : Type) : Type := node -> A * node.

#[global] Instance M_ret : MRet M := fun A a nd => (a, nd).
#[global] Instance M_bind : MBind M :=
  fun A B f m nd => let '(a, nd') := m nd in f a nd'.

Definition emit (e : event) : M unit := fun nd =>
  (tt, mkNode (ku8MBSuccess nd) (slave nd) (response_buffer nd) (library nd)
              (transactions nd) (pins nd) (trace nd ++ [e])).

Definition digitalWrite (pin : Z) (v : level) : M unit := fun nd =>
  (tt, mkNode (ku8MBSuccess nd) (slave nd) (response_buffer nd) (library nd)
              (transactions nd) (<[pin := v]> (pins nd))
              (trace nd ++ [DigitalWrite pin v])).

Definition delay (ms : Z) : M unit := emit (Delay ms).

(** [node.readHoldingRegisters(addr, qty)]: function code 0x03 to the slave
    of [node.begin]; the [uint8_t] result of the library. *)
Definition readHoldingRegisters (addr qty : Z) : M Z := fun nd =>
  let req := mkRequest (slave nd) 0x03 addr qty in
  let '(code, buf) := library nd (transactions nd) req in
  let result := to_byte code in
  (result, mkNode (ku8MBSuccess nd) (slave nd) buf (library nd)
                  (S (transactions nd)) (pins nd)
                  (trace nd ++ [NodeRequest req result])).

(** [node.getResponseBuffer(i)], received as a [uint16_t]; the library
    answers 0xFFFF outside its buffer. *)
Definition getResponseBuffer (i : nat) : M Z := fun nd =>
  (to_u16 (default 0xFFFF (response_buffer nd !! i)), nd).

(** The literals of the sketch. *)
Definition minus_one : float := opp (of_Z 1).
Definition hundred : float := of_Z 100.
Definition ten : float := of_Z 10.

Definition preTransmission : M unit :=
  digitalWrite MAX485_RE_PIN HIGH ;;
  digitalWrite MAX485_DE_PIN HIGH.

Definition postTransmission : M unit :=
  digitalWrite MAX485_DE_PIN LOW ;;
  digitalWrite MAX485_RE_PIN LOW.

Definition readNitrogen : M float := fun nd =>
  (result ← readHoldingRegisters 0x1E 1;
   if result =? ku8MBSuccess nd then
     rawValue ← getResponseBuffer 0;
     mret (of_Z rawValue)
   else
     emit (SerialPrint "Modbus Error (N): ") ;;
     emit (SerialPrintlnHex result) ;;
     mret minus_one) nd.

Definition readPhosphorous : M float := fun nd =>
  (result ← readHoldingRegisters 0x1F 1;
   if result =? ku8MBSuccess nd then
     rawValue ← getResponseBuffer 0;
     mret (of_Z rawValue)
   else
     emit (SerialPrint "Modbus Error (P): ") ;;
     emit (SerialPrintlnHex result) ;;
     mret minus_one) nd.

Definition readPotassium : M float := fun nd =>
  (result ← readHoldingRegisters 0x20 1;
   if result =? ku8MBSuccess nd then
     rawValue ← getResponseBuffer 0;
     mret (of_Z rawValue)
   else
     emit (SerialPrint "Modbus Error (K): ") ;;
     emit (SerialPrintlnHex result) ;;
     mret minus_one) nd.

Definition readElectroconductivity : M float := fun nd =>
  (result ← readHoldingRegisters 0x15 1;
   if result =? ku8MBSuccess nd then
     rawValue ← getResponseBuffer 0;
     mret (of_Z rawValue)
   else
     emit (SerialPrint "Modbus Error (EC): ") ;;
     emit (SerialPrintlnHex result) ;;
     mret minus_one) nd.

Definition readPH : M float := fun nd =>
  (result ← readHoldingRegisters 0x06 1;
   if result =? ku8MBSuccess nd then
     rawValue ← getResponseBuffer 0;
     mret (div (of_Z rawValue) hundred)
   else
     emit (SerialPrint "Modbus Error (pH): ") ;;
     emit (SerialPrintlnHex result) ;;
     mret minus_one) nd.

Definition readTemperature : M float := fun nd =>
  (result ← readHoldingRegisters 0x12 1;
   if result =? ku8MBSuccess nd then
     rawValue ← getResponseBuffer 0;
     mret (div (of_Z rawValue) ten)
   else
     emit (SerialPrint "Modbus Error (Temp): ") ;;
     emit (SerialPrintlnHex result) ;;
     mret minus_one) nd.

(** One block of [loop]: read, test against the sentinel, report, pause. *)
Definition report (read : M float) (label unit_ failure : string)
    (pause : Z) : M bool :=
  v ← read;
  (if neb v minus_one then
     emit (SerialPrint label) ;;
     emit (SerialPrintFloat v) ;;
     emit (SerialPrintln unit_)
   else
     emit (SerialPrintln failure)) ;;
  delay pause ;;
  mret (neb v minus_one).

(** One pass of [loop]; the result tells, block by block, whether the value
    was taken for a reading. *)
Definition loop : M (list bool) :=
  emit (SerialPrintln (String (Ascii.ascii_of_nat 10) "--- Reading Sensor Data ---")) ;;
  b1 ← report readNitrogen "Nitrogen: " " mg/kg"
         "Nitrogen: Error reading data" 1000;
  b2 ← report readPhosphorous "Phosphorous: " " mg/kg"
         "Phosphorous: Error reading data" 1000;
  b3 ← report readPotassium "Potassium: " " mg/kg"
         "Potassium: Error reading data" 1000;
  b4 ← report readElectroconductivity "Electroconductivity: " " uS/cm"
         "Electroconductivity: Error reading data" 1000;
  b5 ← report readPH "Soil pH: " " pH"
         "Soil pH: Error reading data" 1000;
  b6 ← report readTemperature "Temperature: " " C"
         "Temperature: Error reading data" 2000;
  mret [b1; b2; b3; b4; b5; b6].

(** The state after [setup]: slave 1, receive mode. *)
Definition setup (success : Z) (lib : nat -> Request -> Z * list Z) : node :=
  mkNode success 1 (replicate 64 0) lib 0
         (<[MAX485_RE_PIN := LOW]> (<[MAX485_DE_PIN := LOW]> ∅))
         [SerialPrintln "NPK Sensor Reader Initializing...";
          DigitalWrite MAX485_DE_PIN LOW; DigitalWrite MAX485_RE_PIN LOW;
          SerialPrintln "NPK Sensor Reader Ready."; Delay 1000].

Definition reader_of (p : ParameterId) : M float :=
  match p with
  | Nitrogen => readNitrogen
  | Phosphorus => readPhosphorous
  | Potassium => readPotassium
  | Electroconductivity => readElectroconductivity
  | PH => readPH
  | Temperature => readTemperature
  end.

(** The holding register that each reading function asks for. *)
Definition register_of (p : ParameterId) : Z :=
  match p with
  | Nitrogen => 0x1E
  | Phosphorus => 0x1F
  | Potassium => 0x20
  | Electroconductivity => 0x15
  | PH => 0x06
  | Temperature => 0x12
  end.

(** The request that the [k]-th transaction of a run was for, from the
    trace. *)
Definition requests (tr : list event) : list Request :=
  omap (fun e => match e with NodeRequest req _ => Some req | _ => None end) tr.

End Jul28a.

(* ===================================================================== *)
(** * Vocabulary of the statements *)
(* ===================================================================== *)

Module Observe.

Import Jul23a.

(** What the next [mod.write] of [size] bytes reports. *)
Definition next_write (w : world) (size : Z) : Z :=
  match tx_results w with
  | [] => size
  | n :: _ => n
  end.

(** What the next [k] calls of [mod.read] return when [rx] is pending. *)
Fixpoint next_reads (k : nat) (rx : list Z) : list Z :=
  match k with
  | O => []
  | S k' =>
      match rx with
      | [] => -1 :: next_reads k' []
      | r :: rest => r :: next_reads k' rest
      end
  end.

(** The bytes [bs] stored from index [i] on, one assignment after the
    other as the receive loop does. *)
Fixpoint store (i : nat) (bs : list Z) (l : list Z) : list Z :=
  match bs with
  | [] => l
  | b :: bs' => store (S i) bs' (<[i := to_byte b]> l)
  end.

(** The pins after the two writes that open a transaction and after the
    two that close a transmission. *)
Definition transmit (ps : gmap Z level) : gmap Z level :=
  <[RE := HIGH]> (<[DE := HIGH]> ps).
Definition receive (ps : gmap Z level) : gmap Z level :=
  <[RE := LOW]> (<[DE := LOW]> ps).

(** The trace of a receive loop whose reads return [rs]. *)
Definition read_events (rs : list Z) : list event :=
  rs ≫= (fun r => [ModRead r; SerialPrintHex (to_byte r)]).

(** The events of a run from the trace before it and the trace after. *)
Definition events_since (before after : list event) : list event :=
  drop (length before) after.

Definition reads_in (tr : list event) : list Z :=
  omap (fun e => match e with ModRead r => Some r | _ => None end) tr.

Definition writes_in (tr : list event) : list (list Z * Z) :=
  omap (fun e => match e with ModWrite b n => Some (b, n) | _ => None end) tr.

Definition delays_in (tr : list event) : list Z :=
  omap (fun e => match e with Delay d => Some d | _ => None end) tr.

(** The direction protocol of Section 8, as a monitor of the events of one
    transaction on the pins [DE] and [RE].  The monitor follows the level
    of the two pins and remembers whether a delay has passed with both high
    ([settled]), whether the frame was written ([written]), how often the
    pins went back to receive (both low) after the write ([switches]) and
    whether each write found the line settled in transmit and each read
    found it in receive after the write ([respected]). *)
Record line := mkLine {
  de : level;
  re : level;
  settled : bool;
  written : bool;
  switches : nat;
  respected : bool
}.

Definition idle : line := mkLine LOW LOW false false 0 true.

Definition is_high (v : level) : bool := bool_decide (v = HIGH).
Definition is_low (v : level) : bool := bool_decide (v = LOW).

Definition observe (s : line) (e : event) : line :=
  match e with
  | DigitalWrite pin v =>
      let de' := if pin =? DE then v else de s in
      let re' := if pin =? RE then v else re s in
      let receive := is_low de' && is_low re' in
      let received := is_low (de s) && is_low (re s) in
      mkLine de' re'
             (settled s && is_high de' && is_high re')
             (written s)
             (if written s && receive && negb received
              then S (switches s) else switches s)
             (respected s)
  | Delay d =>
      mkLine (de s) (re s)
             (settled s || (is_high (de s) && is_high (re s) && (0 <? d)))
             (written s) (switches s) (respected s)
  | ModWrite _ _ =>
      mkLine (de s) (re s) (settled s) true (switches s)
             (respected s && settled s && is_high (de s) && is_high (re s))
  | ModRead _ =>
      mkLine (de s) (re s) (settled s) (written s) (switches s)
             (respected s && written s && is_low (de s) && is_low (re s))
  | _ => s
  end.

Definition monitor (tr : list event) : line := fold_left observe tr idle.

(** The monitor once the line is back in receive after one write. *)
Definition receiving : line := mkLine LOW LOW false true 1 true.

(** The claim of the direction protocol about the events of a transaction:
    every write after the settle delay, every read in receive mode after
    the write, and exactly one switch back to receive. *)
Definition direction_protocol (tr : list event) : bool :=
  respected (monitor tr) && bool_decide (switches (monitor tr) = 1%nat).

End Observe.

Module Scaling.

Import Binary32 Jul28a.

(** What each reading function of [sketch_jul28a] makes of the raw
    register, read off the six function bodies. *)
Definition scale (p : ParameterId) (raw : Z) : float :=
  match p with
  | PH => div (of_Z raw) hundred
  | Temperature => div (of_Z raw) ten
  | _ => of_Z raw
  end.

(** The scale factor that the specification gives for each parameter. *)
Definition factor (p : ParameterId) : Q :=
  match p with
  | PH => 1 # 100
  | Temperature => 1 # 10
  | _ => 1
  end.

(** The label of the error line of each reading function. *)
Definition error_label (p : ParameterId) : string :=
  match p with
  | Nitrogen => "Modbus Error (N): "
  | Phosphorus => "Modbus Error (P): "
  | Potassium => "Modbus Error (K): "
  | Electroconductivity => "Modbus Error (EC): "
  | PH => "Modbus Error (pH): "
  | Temperature => "Modbus Error (Temp): "
  end.

(** The request of the reading function of [p] and the answer of the
    library to it in state [nd]. *)
Definition request_of (p : ParameterId) (nd : node) : Request :=
  mkRequest (slave nd) 0x03 (register_of p) 1.

Definition result_of (p : ParameterId) (nd : node) : Z :=
  to_byte (fst (library nd (transactions nd) (request_of p nd))).

Definition raw_of (p : ParameterId) (nd : node) : Z :=
  to_u16 (default 0xFFFF
            (snd (library nd (transactions nd) (request_of p nd)) !! 0%nat)).

Definition succeeded (p : ParameterId) (nd : node) : bool :=
  result_of p nd =? ku8MBSuccess nd.

(** A check of [f] on every integer from [base] to [base + 2 ^ bits - 1]. *)
Fixpoint all_below (bits : nat) (base : Z) (f : Z -> bool) : bool :=
  match bits with
  | O => f base
  | S k => all_below k base f && all_below k (base + 2 ^ Z.of_nat k) f
  end.

(** The scaled value of a raw register is finite and is the raw value
    times the factor of the parameter, rounded to binary32; where the factor is 1
    it is the raw value itself; it is not negative and the test against
    the sentinel of the sketch tells it from -1.0. *)
Definition scaled_well (p : ParameterId) (raw : Z) : bool :=
  let v := scale p raw in
  rounds ((raw # 1) * factor p) v
  && (if Qeq_bool (factor p) 1 then Qeq_bool (to_Q v) (raw # 1) else true)
  && Qle_bool 0 (to_Q v)
  && neb v minus_one.

End Scaling.

(* ===================================================================== *)
(** * Concrete runs *)
(* ===================================================================== *)

Module Scenario.

(** The example answer of the specification, a holding register that
    holds 0x0047 = 71, with its CRC. *)
Definition answer_71 : list Z := [0x01; 0x03; 0x02; 0x00; 0x47; 0xF8; 0x76].

(** The same bytes with the CRC replaced by zeros. *)
Definition answer_bad_crc : list Z :=
  [0x01; 0x03; 0x02; 0x00; 0x47; 0x00; 0x00].

(** An answer whose register holds 0x0147 = 327, with its CRC. *)
Definition answer_327 : list Z := [0x01; 0x03; 0x02; 0x01; 0x47; 0xF9; 0xE6].

(** [sketch_jul23a] after [setup]: every write accepted and the example
    answer pending; the first write cut short; a link that stays silent;
    the corrupted answer pending. *)
Definition w_answered : Jul23a.world := Jul23a.setup [] answer_71.
Definition w_short : Jul23a.world := Jul23a.setup [7] answer_71.
Definition w_silent : Jul23a.world := Jul23a.setup [] [].
Definition w_bad_crc : Jul23a.world := Jul23a.setup [] answer_bad_crc.

(** The first write accepted and answered, the second cut short. *)
Definition w_then_short : Jul23a.world := Jul23a.setup [8; 7] answer_71.

(** The answer of the sensor to the two-register request for the
    temperature: nine bytes. *)
Definition answer_two_registers : list Z :=
  [0x01; 0x03; 0x04; 0x00; 0xFA; 0x00; 0x00; 0xDA; 0x02].
Definition w_two_registers : Jul23a.world :=
  Jul23a.setup [] answer_two_registers.

(** [sketch_jul28a] after [setup] with a library whose success code is 0
    and whose every transaction succeeds with the register [raw]; and with
    a library that reports the code [code] and leaves [raw] behind. *)
Definition nd_success (raw : Z) : Jul28a.node :=
  Jul28a.setup 0 (fun _ _ => (0, [raw])).
Definition nd_failure (code raw : Z) : Jul28a.node :=
  Jul28a.setup 0 (fun _ _ => (code, [raw])).

End Scenario.

(* ===================================================================== *)
(** * Vocabulary of the runs of both sketches *)
(* ===================================================================== *)

Module Runs.

Import Jul23a Observe.

(** The parameters in the order [loop] reads them, in both sketches. *)
Definition all_parameters : list ParameterId :=
  [Nitrogen; Phosphorus; Potassium; Electroconductivity; PH; Temperature].

Definition is_byte (z : Z) : Prop := 0 ≤ z < 256.

(** The buffer has its eleven entries and each of them is a byte. *)
Definition sound (w : world) : Prop :=
  length (values w) = 11%nat ∧ Forall is_byte (values w).

(** Every write that the state lists is accepted in full. *)
Definition accepted (w : world) : Prop := Forall (fun n => n = 8) (tx_results w).

(** The events that a computation adds to the trace of [w]. *)
Definition events_of {A : Type} (m : M A) (w : world) : list event :=
  events_since (trace w) (trace (snd (m w))).

Definition pin_writes (tr : list event) : list (Z * level) :=
  omap (fun e => match e with DigitalWrite p v => Some (p, v) | _ => None end)
       tr.

Definition bytes_printed (tr : list event) : list Z :=
  omap (fun e => match e with SerialPrintByte v => Some v | _ => None end) tr.

(** What the next [k] calls of [mod.write] with 8 bytes report when [tx]
    is listed. *)
Fixpoint next_writes (k : nat) (tx : list Z) : list Z :=
  match k with
  | O => []
  | S k' =>
      match tx with
      | [] => 8 :: next_writes k' []
      | n :: rest => n :: next_writes k' rest
      end
  end.

(** The events of one reading function, by the count [n] that its write
    reports and the [rx] results pending. *)
Definition reader_events (frame : list Z) (n : Z) (rx : list Z)
  : list event :=
  [DigitalWrite DE HIGH; DigitalWrite RE HIGH; Delay 10; ModWrite frame n]
  ++ (if decide (n = 8)
      then [DigitalWrite DE LOW; DigitalWrite RE LOW]
           ++ read_events (next_reads 7 rx)
           ++ [SerialPrintln EmptyString]
      else []).

(** The state that one reading function leaves. *)
Definition reader_world (frame : list Z) (w : world) : world :=
  let n := next_write w 8 in
  mkWorld (if decide (n = 8)
           then store 0 (next_reads 7 (rx_results w)) (values w)
           else values w)
          (if decide (n = 8) then receive (transmit (pins w))
           else transmit (pins w))
          (tail (tx_results w))
          (if decide (n = 8) then drop 7 (rx_results w) else rx_results w)
          (trace w ++ reader_events frame n (rx_results w)).

(** The value that one reading function returns. *)
Definition reader_value (w : world) : Z :=
  if decide (next_write w 8 = 8)
  then to_byte (default (-1) (rx_results w !! 4%nat))
  else value_at w 4.

(** The state with one more event in its trace. *)
Definition logged (e : event) (w : world) : world :=
  mkWorld (values w) (pins w) (tx_results w) (rx_results w) (trace w ++ [e]).

(** What [loop] of [sketch_jul23a] prints for its six readings. *)
Definition report_lines (vs : list Z) : list event :=
  match vs with
  | [val1; val2; val3; val4; val5; val6] =>
      [SerialPrint "Nitrogen: "; SerialPrintByte val1; SerialPrintln " mg/kg";
       SerialPrint "Phosphorous: "; SerialPrintByte val2;
       SerialPrintln " mg/kg";
       SerialPrint "Potassium: "; SerialPrintByte val3; SerialPrintln " mg/kg";
       SerialPrint "Electroconductivity"; SerialPrintByte val4;
       SerialPrintln " us/cm";
       SerialPrint "Soil pH"; SerialPrintByte val5; SerialPrintln " pH";
       SerialPrint "Temperature"; SerialPrintByte val6; SerialPrintln " C"]
  | _ => []
  end.

(** The state in which the next reading function of [loop] starts: the
    reading function of [p] has run and 250 ms have passed. *)
Definition next (p : ParameterId) (w : world) : world :=
  logged (Delay 250) (reader_world (frame_of p) w).

(** The states in which the reading functions of [ps] start, one after
    the other from [w]. *)
Fixpoint starts (ps : list ParameterId) (w : world) : list world :=
  match ps with
  | [] => []
  | p :: ps' => w :: starts ps' (next p w)
  end.

(** The six readings of one pass of [loop] started in [w]. *)
Definition loop_values (w : world) : list Z :=
  reader_value <$> starts all_parameters w.

(** The state in which [temperature] starts, and the one it leaves. *)
Definition before_temperature (w : world) : world :=
  next PH (next Electroconductivity (next Potassium
    (next Phosphorus (next Nitrogen w)))).
Definition after_temperature (w : world) : world :=
  reader_world temp (before_temperature w).

(** The events of the reading functions of [ps] run one after the other
    from [w], each followed by the pause of 250 ms. *)
Fixpoint readers_events (ps : list ParameterId) (w : world) : list event :=
  match ps with
  | [] => []
  | p :: ps' =>
      reader_events (frame_of p) (next_write w 8) (rx_results w)
      ++ Delay 250 :: readers_events ps' (next p w)
  end.

(** The events of one pass of [loop] started in [w]. *)
Definition loop_events (w : world) : list event :=
  readers_events [Nitrogen; Phosphorus; Potassium; Electroconductivity; PH] w
  ++ reader_events temp (next_write (before_temperature w) 8)
       (rx_results (before_temperature w))
  ++ report_lines (loop_values w) ++ [Delay 2000].

(** The state with the events [evs] added to its trace. *)
Definition logged_all (evs : list event) (w : world) : world :=
  foldl (fun w e => logged e w) w evs.

(** The state that one pass of [loop] leaves. *)
Definition loop_world (w : world) : world :=
  logged_all (report_lines (loop_values w) ++ [Delay 2000])
             (after_temperature w).

(** The state after [n] passes of [loop]. *)
Fixpoint passes (n : nat) (w : world) : world :=
  match n with
  | O => w
  | S n' => snd (loop (passes n' w))
  end.

End Runs.

Module Runs28.

Import Binary32 Jul28a Scaling.

(** The state with one more event, and with several more, in its trace. *)
Definition logged (e : event) (nd : node) : node :=
  mkNode (ku8MBSuccess nd) (slave nd) (response_buffer nd) (library nd)
         (transactions nd) (pins nd) (trace nd ++ [e]).

Definition logged_all (evs : list event) (nd : node) : node :=
  foldl (fun nd e => logged e nd) nd evs.

(** The events that a computation adds to the trace of [nd]. *)
Definition events_of {A : Type} (m : M A) (nd : node) : list event :=
  Observe.events_since (trace nd) (trace (snd (m nd))).

Definition floats_printed (tr : list event) : list float :=
  omap (fun e => match e with SerialPrintFloat v => Some v | _ => None end) tr.

Definition codes_printed (tr : list event) : list Z :=
  omap (fun e => match e with SerialPrintlnHex c => Some c | _ => None end) tr.

(** The strings and the pause of each block of [loop]. *)
Definition label (p : ParameterId) : string :=
  match p with
  | Nitrogen => "Nitrogen: "
  | Phosphorus => "Phosphorous: "
  | Potassium => "Potassium: "
  | Electroconductivity => "Electroconductivity: "
  | PH => "Soil pH: "
  | Temperature => "Temperature: "
  end.

Definition unit_of (p : ParameterId) : string :=
  match p with
  | Nitrogen | Phosphorus | Potassium => " mg/kg"
  | Electroconductivity => " uS/cm"
  | PH => " pH"
  | Temperature => " C"
  end.

Definition failure_line (p : ParameterId) : string :=
  match p with
  | Nitrogen => "Nitrogen: Error reading data"
  | Phosphorus => "Phosphorous: Error reading data"
  | Potassium => "Potassium: Error reading data"
  | Electroconductivity => "Electroconductivity: Error reading data"
  | PH => "Soil pH: Error reading data"
  | Temperature => "Temperature: Error reading data"
  end.

Definition pause_of (p : ParameterId) : Z :=
  match p with
  | Temperature => 2000
  | _ => 1000
  end.

(** The block of [loop] for the parameter [p]. *)
Definition block (p : ParameterId) : M bool :=
  report (reader_of p) (label p) (unit_of p) (failure_line p) (pause_of p).

(** The value that the reading function of [p] returns in state [nd]. *)
Definition reader_float (p : ParameterId) (nd : node) : float :=
  if succeeded p nd then scale p (raw_of p nd) else minus_one.

(** What the block of [p] adds to the trace of [nd]. *)
Definition block_events (p : ParameterId) (nd : node) : list event :=
  NodeRequest (request_of p nd) (result_of p nd)
  :: (if succeeded p nd
      then [SerialPrint (label p); SerialPrintFloat (scale p (raw_of p nd));
            SerialPrintln (unit_of p)]
      else [SerialPrint (error_label p); SerialPrintlnHex (result_of p nd);
            SerialPrintln (failure_line p)])
  ++ [Delay (pause_of p)].

(** The state that the block of [p] leaves. *)
Definition block_node (p : ParameterId) (nd : node) : node :=
  mkNode (ku8MBSuccess nd) (slave nd)
         (snd (library nd (transactions nd) (request_of p nd)))
         (library nd) (S (transactions nd)) (pins nd)
         (trace nd ++ block_events p nd).

(** The states in which the blocks of [ps] start, and the state after
    them. *)
Fixpoint starts (ps : list ParameterId) (nd : node) : list node :=
  match ps with
  | [] => []
  | p :: ps' => nd :: starts ps' (block_node p nd)
  end.

Definition after (ps : list ParameterId) (nd : node) : node :=
  foldl (fun nd p => block_node p nd) nd ps.

Fixpoint blocks_events (ps : list ParameterId) (nd : node) : list event :=
  match ps with
  | [] => []
  | p :: ps' => block_events p nd ++ blocks_events ps' (block_node p nd)
  end.

(** The first line that [loop] prints. *)
Definition header : event :=
  SerialPrintln (String (Ascii.ascii_of_nat 10) "--- Reading Sensor Data ---").

(** Whether the [k]-th transaction from state [nd] on, asked for the
    register of [p], succeeds. *)
Definition flag (nd : node) (k : nat) (p : ParameterId) : bool :=
  to_byte (fst (library nd (k + transactions nd)%nat
                  (mkRequest (slave nd) 0x03 (register_of p) 1)))
  =? ku8MBSuccess nd.

(** Whether each of the blocks of [ps], run one after the other from
    [nd], finds its transaction successful. *)
Definition flags (ps : list ParameterId) (nd : node) : list bool :=
  zip_with succeeded ps (starts ps nd).

(** A value fit to be printed as a reading: finite, not negative, and not
    the sentinel. *)
Definition reading (v : float) : Prop :=
  is_finite v = true ∧ Qle_bool 0 (to_Q v) = true ∧ neb v minus_one = true.

End Runs28.

(* ===================================================================== *)
(** * Frames and their CRC *)
(* ===================================================================== *)

(** A frame closed with the CRC of its bytes verifies, whatever the
    bytes; so does every frame that [build_request] builds. *)
Lemma verify_appended_crc (bytes : list Z) :
  Crc16.verify (bytes ++ Crc16.little_endian (Crc16.compute bytes)) = true.
Proof.
  unfold Crc16.verify. rewrite length_app. cbn [length Crc16.little_endian].
  replace (length bytes + 2 - 2)%nat with (length bytes) by lia.
  rewrite take_app_length, drop_app_length. by apply bool_decide_eq_true.
Qed.

Lemma verify_build_request (req : Request) :
  Crc16.verify (FrameCodec.build_request req) = true.
Proof. apply verify_appended_crc. Qed.

(* ===================================================================== *)
(** * The reading functions of sketch_jul23a, step by step *)
(* ===================================================================== *)

Section Jul23aSteps.

Import Jul23a Observe.

Lemma reader_is_transaction (p : ParameterId) :
  reader_of p = transaction (frame_of p).
Proof. by destruct p. Qed.

Lemma sizeof_frame (p : ParameterId) : sizeof (frame_of p) = 8.
Proof. by destruct p. Qed.

Lemma next_reads_length (k : nat) : ∀ rx, length (next_reads k rx) = k.
Proof.
  induction k as [|k IH]; intros rx; [done|].
  destruct rx; simpl; by rewrite IH.
Qed.

Lemma next_reads_lookup (k : nat) :
  ∀ rx (n : nat), (n < k)%nat →
    next_reads k rx !! n = Some (default (-1) (rx !! n)).
Proof.
  induction k as [|k IH]; intros rx n Hn; [lia|].
  destruct rx as [|r rest], n as [|n]; simpl; try done.
  - rewrite IH by lia. by destruct n.
  - apply IH. lia.
Qed.

Lemma store_length (bs : list Z) :
  ∀ i (l : list Z), length (store i bs l) = length l.
Proof.
  induction bs as [|b bs IH]; intros i l; simpl; [done|].
  by rewrite IH, length_insert.
Qed.

Lemma store_lookup_before (bs : list Z) :
  ∀ i (l : list Z) (j : nat), (j < i)%nat → store i bs l !! j = l !! j.
Proof.
  induction bs as [|b bs IH]; intros i l j Hj; simpl; [done|].
  rewrite IH by lia. apply list_lookup_insert_ne. lia.
Qed.

Lemma store_lookup (bs : list Z) :
  ∀ i (l : list Z) (n : nat),
    (i + length bs ≤ length l)%nat → (n < length bs)%nat →
    store i bs l !! (i + n)%nat = to_byte <$> bs !! n.
Proof.
  induction bs as [|b bs IH]; intros i l n Hl Hn; simpl in *; [lia|].
  destruct n as [|n].
  - rewrite Nat.add_0_r, store_lookup_before by lia.
    apply list_lookup_insert_eq. lia.
  - replace (i + S n)%nat with (S i + n)%nat by lia.
    apply IH; [rewrite length_insert|]; lia.
Qed.

(** The receive loop: [k] reads, each stored and echoed. *)
Lemma for_read_into (k : nat) :
  ∀ i w, (i + k ≤ length (values w))%nat →
    for_ k i read_into w =
      (tt, mkWorld (store i (next_reads k (rx_results w)) (values w))
                   (pins w) (tx_results w) (drop k (rx_results w))
                   (trace w ++ read_events (next_reads k (rx_results w)))).
Proof.
  induction k as [|k IH]; intros i [vs ps tx rx tr] Hl; simpl in *.
  - unfold mret, M_ret, read_events; simpl. by rewrite app_nil_r.
  - unfold mbind, M_bind, read_into, mod_read, set_value, get_value, emit,
      value_at; simpl.
    destruct rx as [|r rest]; simpl;
      (rewrite list_lookup_insert_eq by lia); simpl;
      (rewrite IH by (simpl; rewrite length_insert; lia)); simpl;
      unfold read_events; simpl; rewrite <- !app_assoc, ?drop_nil;
      reflexivity.
Qed.

(** A transaction whose write reports 8 bytes. *)
Lemma transaction_full (frame : list Z) (w : world) :
  next_write w (sizeof frame) = 8 →
  (7 ≤ length (values w))%nat →
  transaction frame w =
    (to_byte (default (-1) (rx_results w !! 4%nat)),
     mkWorld (store 0 (next_reads 7 (rx_results w)) (values w))
             (receive (transmit (pins w)))
             (tail (tx_results w))
             (drop 7 (rx_results w))
             (trace w ++
              [DigitalWrite DE HIGH; DigitalWrite RE HIGH; Delay 10;
               ModWrite (take (Z.to_nat (sizeof frame)) frame) 8;
               DigitalWrite DE LOW; DigitalWrite RE LOW]
              ++ read_events (next_reads 7 (rx_results w))
              ++ [SerialPrintln EmptyString])).
Proof.
  intros Hw Hl. destruct w as [vs ps tx rx tr]. unfold next_write in Hw.
  simpl in Hw, Hl.
  assert (Hloop := for_read_into 7 0).
  unfold transaction. set (body := for_ 7 0 read_into) in *.
  unfold mbind, M_bind, digitalWrite, delay, emit, mod_write.
  cbn [values pins tx_results rx_results trace].
  clearbody body.
  destruct tx as [|n rest]; subst; rewrite ?Hw; cbn [Z.eqb Pos.eqb tail];
    cbv beta; cbn [values pins tx_results rx_results trace];
    (rewrite Hloop by (cbn [values]; lia));
    cbn [values pins tx_results rx_results trace get_value value_at].
  all: unfold get_value, value_at; cbn [values].
  all: rewrite (store_lookup _ 0 vs 4), next_reads_lookup
         by (rewrite ?next_reads_length; simpl; lia).
  all: cbn [fmap option_fmap option_map default].
  all: by rewrite <- !app_assoc.
Qed.

(** A transaction whose write reports another count. *)
Lemma transaction_short (frame : list Z) (w : world) :
  next_write w (sizeof frame) ≠ 8 →
  transaction frame w =
    (value_at w 4,
     mkWorld (values w) (transmit (pins w)) (tail (tx_results w))
             (rx_results w)
             (trace w ++
              [DigitalWrite DE HIGH; DigitalWrite RE HIGH; Delay 10;
               ModWrite (take (Z.to_nat (sizeof frame)) frame)
                        (next_write w (sizeof frame))])).
Proof.
  intros Hw. destruct w as [vs ps tx rx tr]. unfold next_write in *.
  cbn [tx_results] in *.
  unfold transaction. set (body := for_ 7 0 read_into). clearbody body.
  unfold mbind, M_bind, digitalWrite, delay, emit, mod_write.
  cbn [values pins tx_results rx_results trace].
  destruct tx as [|n rest]; cbn [tail].
  all: match goal with |- context [?a =? 8] => destruct (Z.eqb_spec a 8) end;
    [done|].
  all: unfold mret, M_ret, get_value, value_at;
    cbn [values pins tx_results rx_results trace].
  all: by rewrite <- !app_assoc.
Qed.


End Jul23aSteps.

(* ===================================================================== *)
(** * The reading functions of sketch_jul28a, step by step *)
(* ===================================================================== *)

Section Jul28aSteps.

Import Binary32 Jul28a Scaling.

(** Each reading function: one request; on success the scaled register, on
    any other result the two error prints and the sentinel. *)
Lemma reader_spec (p : ParameterId) (nd : node) :
  reader_of p nd =
    (if succeeded p nd then scale p (raw_of p nd) else minus_one,
     mkNode (ku8MBSuccess nd) (slave nd)
            (snd (library nd (transactions nd) (request_of p nd)))
            (library nd) (S (transactions nd)) (pins nd)
            (trace nd ++
             NodeRequest (request_of p nd) (result_of p nd) ::
             (if succeeded p nd then []
              else [SerialPrint (error_label p);
                    SerialPrintlnHex (result_of p nd)]))).
Proof.
  unfold succeeded, raw_of, result_of, request_of.
  destruct p; cbn [reader_of register_of scale error_label].
  all: unfold readNitrogen, readPhosphorous, readPotassium,
         readElectroconductivity, readPH, readTemperature,
         mbind, M_bind, readHoldingRegisters, getResponseBuffer.
  all: destruct (library nd _ _) as [code buf]; cbn [fst snd ku8MBSuccess].
  all: destruct (to_byte code =? ku8MBSuccess nd);
         unfold mret, M_ret, emit;
         cbn [ku8MBSuccess slave response_buffer library transactions
              pins trace];
         by rewrite <- ?app_assoc.
Qed.

End Jul28aSteps.

(* ===================================================================== *)
(** * The scaling, register value by register value *)
(* ===================================================================== *)

Section ScalingFacts.

Import Binary32 Jul28a Scaling.

Lemma all_below_spec (bits : nat) (f : Z → bool) :
  ∀ base, all_below bits base f = true →
    ∀ z, base ≤ z < base + 2 ^ Z.of_nat bits → f z = true.
Proof.
  induction bits as [|k IH]; intros base H z Hz; simpl in H.
  - replace z with base by (simpl in Hz; lia). done.
  - apply andb_true_iff in H as [H1 H2].
    rewrite Nat2Z.inj_succ, Z.pow_succ_r in Hz by lia.
    destruct (decide (z < base + 2 ^ Z.of_nat k)).
    + apply (IH base); [done|lia].
    + apply (IH (base + 2 ^ Z.of_nat k)); [done|lia].
Qed.

Lemma sweep_unscaled : all_below 16 0 (scaled_well Nitrogen) = true.
Proof. vm_compute. reflexivity. Qed.

Lemma sweep_hundredths : all_below 16 0 (scaled_well PH) = true.
Proof. vm_compute. reflexivity. Qed.

Lemma sweep_tenths : all_below 16 0 (scaled_well Temperature) = true.
Proof. vm_compute. reflexivity. Qed.

Lemma scaled_well_all (p : ParameterId) (raw : Z) :
  0 ≤ raw < 65536 → scaled_well p raw = true.
Proof.
  intros Hr.
  assert (Hu : scaled_well Nitrogen raw = true)
    by (apply (all_below_spec 16 _ 0 sweep_unscaled); simpl; lia).
  destruct p; try exact Hu.
  - apply (all_below_spec 16 _ 0 sweep_hundredths); simpl; lia.
  - apply (all_below_spec 16 _ 0 sweep_tenths); simpl; lia.
Qed.

Lemma word_is_sum (hi lo : Z) :
  0 ≤ lo < 256 → FrameCodec.word hi lo = 256 * hi + lo.
Proof.
  intros Hlo. unfold FrameCodec.word.
  rewrite Z.shiftl_mul_pow2 by lia.
  rewrite <- Z.lxor_lor, <- Z.add_nocarry_lxor; [lia| |].
  all: apply Z.bits_inj'; intros n Hn; rewrite Z.land_spec, Z.bits_0.
  all: destruct (decide (n < 8)).
  all: try (rewrite Z.mul_pow2_bits_low by lia; reflexivity).
  all: rewrite (Z.bits_above_log2 lo n), andb_false_r; try done; try lia.
  all: destruct (decide (lo = 0)) as [->|]; [simpl; lia|].
  all: apply Z.log2_lt_pow2; try lia.
  all: apply Z.lt_le_trans with (2 ^ 8); [lia|].
  all: apply Z.pow_le_mono_r; lia.
Qed.
End ScalingFacts.


(* ===================================================================== *)
(** * The events of a transaction of sketch_jul23a *)
(* ===================================================================== *)

Section Jul23aEvents.

Import Jul23a Observe.

Lemma events_since_app (tr evs : list event) :
  events_since tr (tr ++ evs) = evs.
Proof. apply drop_app_length. Qed.

Lemma reads_in_app (tr1 tr2 : list event) :
  reads_in (tr1 ++ tr2) = reads_in tr1 ++ reads_in tr2.
Proof. apply omap_app. Qed.

Lemma reads_in_read_events (rs : list Z) : reads_in (read_events rs) = rs.
Proof.
  unfold reads_in, read_events.
  induction rs as [|r rs IH]; [done|]. simpl. f_equal. exact IH.
Qed.

(** The events of a full transaction and of a short one. *)
Lemma events_full (frame : list Z) (w : world) :
  next_write w (sizeof frame) = 8 →
  (7 ≤ length (values w))%nat →
  events_since (trace w) (trace (snd (transaction frame w))) =
    [DigitalWrite DE HIGH; DigitalWrite RE HIGH; Delay 10;
     ModWrite (take (Z.to_nat (sizeof frame)) frame) 8;
     DigitalWrite DE LOW; DigitalWrite RE LOW]
    ++ read_events (next_reads 7 (rx_results w))
    ++ [SerialPrintln EmptyString].
Proof.
  intros Hw Hl. rewrite transaction_full by done.
  cbn [snd trace]. apply events_since_app.
Qed.

Lemma events_short (frame : list Z) (w : world) :
  next_write w (sizeof frame) ≠ 8 →
  events_since (trace w) (trace (snd (transaction frame w))) =
    [DigitalWrite DE HIGH; DigitalWrite RE HIGH; Delay 10;
     ModWrite (take (Z.to_nat (sizeof frame)) frame)
              (next_write w (sizeof frame))].
Proof.
  intros Hw. rewrite transaction_short by done.
  cbn [snd trace]. apply events_since_app.
Qed.

(** The reads of a full transaction are the next seven of the port. *)
Lemma reads_full (frame : list Z) (w : world) :
  next_write w (sizeof frame) = 8 →
  (7 ≤ length (values w))%nat →
  reads_in (events_since (trace w) (trace (snd (transaction frame w))))
    = next_reads 7 (rx_results w).
Proof.
  intros Hw Hl. rewrite events_full by done.
  rewrite !reads_in_app, reads_in_read_events.
  change (reads_in [SerialPrintln EmptyString]) with (@nil Z).
  by rewrite app_nil_r.
Qed.

Lemma delays_in_app (tr1 tr2 : list event) :
  delays_in (tr1 ++ tr2) = delays_in tr1 ++ delays_in tr2.
Proof. apply omap_app. Qed.

Lemma delays_in_read_events (rs : list Z) : delays_in (read_events rs) = [].
Proof.
  unfold delays_in, read_events.
  induction rs as [|r rs IH]; [done|]. simpl. exact IH.
Qed.

(** The one delay of a full transaction is the settle delay. *)
Lemma delays_full (frame : list Z) (w : world) :
  next_write w (sizeof frame) = 8 →
  (7 ≤ length (values w))%nat →
  delays_in (events_since (trace w) (trace (snd (transaction frame w))))
    = [10].
Proof.
  intros Hw Hl. rewrite events_full by done.
  rewrite !delays_in_app, delays_in_read_events. reflexivity.
Qed.

(** Once the line is back in receive after the write, the receive loop
    changes nothing for the monitor. *)
Lemma monitor_reads (rs : list Z) :
  fold_left observe (read_events rs) receiving = receiving.
Proof.
  unfold read_events. induction rs as [|r rs IH]; [done|].
  simpl. exact IH.
Qed.

Lemma monitor_full (frame : list Z) (rs : list Z) :
  monitor ([DigitalWrite DE HIGH; DigitalWrite RE HIGH; Delay 10;
            ModWrite frame 8; DigitalWrite DE LOW; DigitalWrite RE LOW]
           ++ read_events rs ++ [SerialPrintln EmptyString]) = receiving.
Proof.
  unfold monitor. rewrite !fold_left_app.
  change (fold_left observe [DigitalWrite DE HIGH; DigitalWrite RE HIGH;
            Delay 10; ModWrite frame 8; DigitalWrite DE LOW;
            DigitalWrite RE LOW] idle) with receiving.
  by rewrite monitor_reads.
Qed.

End Jul23aEvents.

(* ===================================================================== *)
(** * What a caller gets back *)
(* ===================================================================== *)

Lemma scaled_well_inv (p : ParameterId) (raw : Z) :
  Scaling.scaled_well p raw = true →
  Binary32.rounds ((raw # 1) * Scaling.factor p) (Scaling.scale p raw) = true
  ∧ (if Qeq_bool (Scaling.factor p) 1
     then Qeq_bool (Binary32.to_Q (Scaling.scale p raw)) (raw # 1)
     else true) = true
  ∧ Qle_bool 0 (Binary32.to_Q (Scaling.scale p raw)) = true
  ∧ Binary32.neb (Scaling.scale p raw) Jul28a.minus_one = true.
Proof.
  unfold Scaling.scaled_well. cbv zeta. rewrite !andb_true_iff. tauto.
Qed.

(** A successful transaction hands the scaled register back. *)
Lemma reader_success (p : ParameterId) (nd : Jul28a.node) :
  Scaling.succeeded p nd = true →
  fst (Jul28a.reader_of p nd) = Scaling.scale p (Scaling.raw_of p nd).
Proof. intros H. rewrite reader_spec, H. reflexivity. Qed.

Lemma raw_of_range (p : ParameterId) (nd : Jul28a.node) :
  0 ≤ Scaling.raw_of p nd < 65536.
Proof. unfold Scaling.raw_of, to_u16. apply Z.mod_pos_bound. lia. Qed.

(** A full transaction of [sketch_jul23a] returns the fifth byte read. *)
Lemma reader_full (p : ParameterId) (w : Jul23a.world) :
  Observe.next_write w 8 = 8 →
  length (Jul23a.values w) = 11%nat →
  fst (Jul23a.reader_of p w) =
    to_byte (default (-1) (Jul23a.rx_results w !! 4%nat)).
Proof.
  intros Hw Hl.
  rewrite reader_is_transaction, transaction_full; [done| |lia].
  by rewrite sizeof_frame.
Qed.

(** One block of [loop] tells whether the transaction succeeded. *)
Lemma report_spec (p : ParameterId) (nd : Jul28a.node)
    (label unit_ failure : string) (pause : Z) :
  fst (Jul28a.report (Jul28a.reader_of p) label unit_ failure pause nd)
    = Binary32.neb (fst (Jul28a.reader_of p nd)) Jul28a.minus_one.
Proof.
  unfold Jul28a.report, mbind, Jul28a.M_bind.
  destruct (Jul28a.reader_of p nd) as [v nd1]. cbn [fst].
  destruct (Binary32.neb v Jul28a.minus_one); reflexivity.
Qed.

(** One pass of [loop] of [sketch_jul23a] in which the second write is cut
    short: the phosphorus line prints the nitrogen reading. *)
Example loop_repeats_the_previous_reading :
  fst (Jul23a.loop Scenario.w_then_short) = [71; 71; 255; 255; 255; 255].
Proof. vm_compute. reflexivity. Qed.

(** One pass of [loop] of [sketch_jul28a] with a library that fails every
    other transaction: the blocks tell the readings from the failures. *)
Example loop_tells_readings_from_failures :
  fst (Jul28a.loop
         (Jul28a.setup 0 (fun k _ => (if Nat.even k then 0 else 0xE2, [320]))))
    = [true; false; true; false; true; false].
Proof. vm_compute. reflexivity. Qed.

(** Multiplying by the float nearest to 0.01 is another function than the
    division of the sketch: the two differ on the raw value 5. *)
Example division_differs_from_rounded_factor :
  Binary32.mul (Binary32.of_Z 5) (Binary32.div (Binary32.of_Z 1) Jul28a.hundred)
  ≠ Binary32.div (Binary32.of_Z 5) Jul28a.hundred.
Proof. vm_compute. discriminate. Qed.

(* ===================================================================== *)
(** * The claims of the specification *)
(* ===================================================================== *)


(** C1.  Each of the six request arrays of [sketch_jul23a] is an 8-byte
    frame that opens with slave address 0x01 and function code 0x03 and
    closes with the Modbus CRC16 of its first six bytes, low byte first:
    the array verifies, and it is the frame built from the request it
    carries. *)
Theorem C1_request_arrays_carry_their_crc (p : ParameterId) :
  let frame := Jul23a.frame_of p in
  length frame = 8%nat
  ∧ take 2 frame = [0x01; 0x03]
  ∧ drop 6 frame = Crc16.little_endian (Crc16.compute (take 6 frame))
  ∧ Crc16.verify frame = true
  ∧ ∃ req, FrameCodec.request_of_frame frame = Some req
           ∧ FrameCodec.build_request req = frame.
Proof.
  destruct p; cbv zeta.
  all: split; [reflexivity|]; split; [reflexivity|].
  all: split; [vm_compute; reflexivity|]; split; [vm_compute; reflexivity|].
  all: eexists; split; [reflexivity|vm_compute; reflexivity].
Qed.

(** C2.  On a successful transaction [sketch_jul28a] hands back the full
    16-bit register, the big-endian word of the two payload bytes, scaled
    as the parameter asks and exactly where the scale is 1; on the same
    two payload bytes each reading function of [sketch_jul23a] returns
    [values[4]], the low payload byte alone, which is the register value
    only when the high byte is zero. *)
Theorem C2_full_register_against_low_byte
    (p : ParameterId) (nd : Jul28a.node) (w : Jul23a.world) (hi lo : Z) :
  0 ≤ hi < 256 → 0 ≤ lo < 256 →
  Scaling.succeeded p nd = true →
  snd (Jul28a.library nd (Jul28a.transactions nd) (Scaling.request_of p nd))
    !! 0%nat = Some (FrameCodec.word hi lo) →
  Observe.next_write w 8 = 8 →
  length (Jul23a.values w) = 11%nat →
  Jul23a.rx_results w !! 3%nat = Some hi →
  Jul23a.rx_results w !! 4%nat = Some lo →
  fst (Jul28a.reader_of p nd) = Scaling.scale p (256 * hi + lo)
  ∧ (if Qeq_bool (Scaling.factor p) 1
     then Qeq_bool (Binary32.to_Q (fst (Jul28a.reader_of p nd)))
                   (256 * hi + lo # 1)
     else true) = true
  ∧ fst (Jul23a.reader_of p w) = lo
  ∧ fst (Jul23a.reader_of p w) = (256 * hi + lo) mod 256
  ∧ (fst (Jul23a.reader_of p w) = 256 * hi + lo ↔ hi = 0).
Proof.
  intros Hhi Hlo Hok Hbuf Hw Hl _ H4.
  assert (Hraw : Scaling.raw_of p nd = 256 * hi + lo).
  { unfold Scaling.raw_of. rewrite Hbuf. cbn [default].
    rewrite word_is_sum by done. unfold to_u16. apply Z.mod_small. lia. }
  rewrite reader_success, Hraw by done.
  rewrite reader_full, H4 by done. cbn [default]. unfold to_byte.
  rewrite (Z.mod_small lo) by lia.
  destruct (scaled_well_inv p (256 * hi + lo)) as (_ & Hexact & _).
  { apply scaled_well_all. lia. }
  split; [reflexivity|]. split; [exact Hexact|]. split; [reflexivity|].
  split; [|lia].
  rewrite Z.add_comm, Z.mul_comm, Z_mod_plus_full. symmetry.
  apply Z.mod_small. lia.
Qed.

(** C2 at a concrete run. *)
Lemma C2_witness :
  Scaling.succeeded Nitrogen (Scenario.nd_success 71) = true
  ∧ Observe.next_write Scenario.w_answered 8 = 8
  ∧ fst (Jul28a.reader_of Nitrogen (Scenario.nd_success 71))
    = Scaling.scale Nitrogen (256 * 0 + 71)
  ∧ fst (Jul23a.reader_of Nitrogen Scenario.w_answered) = 71.
Proof.
  split; [vm_compute; reflexivity|]. split; [vm_compute; reflexivity|].
  destruct (C2_full_register_against_low_byte Nitrogen
              (Scenario.nd_success 71) Scenario.w_answered 0 71)
    as (H1 & _ & H3 & _);
    [lia | lia | vm_compute; reflexivity .. | ].
  split; [exact H1|exact H3].
Defined.

(** C3, as stated, fails on [sketch_jul23a]: the seven bytes read do not
    verify, their CRC field being zero, and [nitrogen] still returns the
    payload byte 0x47 of that frame. *)
Lemma C3_counterexample :
  Observe.reads_in
    (Observe.events_since (Jul23a.trace Scenario.w_bad_crc)
       (Jul23a.trace (snd (Jul23a.nitrogen Scenario.w_bad_crc))))
    = Scenario.answer_bad_crc
  ∧ Crc16.verify Scenario.answer_bad_crc = false
  ∧ fst (Jul23a.nitrogen Scenario.w_bad_crc) = 0x47.
Proof. vm_compute. repeat split. Qed.

(** C3, amended.  [sketch_jul23a] verifies no CRC: when the write reports
    8 bytes, each reading function returns the fifth byte read (narrowed
    to a byte) whatever the two trailing bytes [c1] and [c2] of the frame
    are.  In [sketch_jul28a] the check is the library's: whenever the
    library reports a result other than [ku8MBSuccess], a CRC mismatch
    included, the reading function prints the result code and returns the
    sentinel -1.0, which the test of [loop] takes for a failure. *)
Theorem C3_crc_left_to_the_library
    (p : ParameterId) (w : Jul23a.world) (nd : Jul28a.node)
    (b0 b1 b2 b3 b4 c1 c2 : Z) (rest : list Z) :
  Observe.next_write w 8 = 8 →
  length (Jul23a.values w) = 11%nat →
  Jul23a.rx_results w = b0 :: b1 :: b2 :: b3 :: b4 :: c1 :: c2 :: rest →
  Scaling.succeeded p nd = false →
  Observe.reads_in
    (Observe.events_since (Jul23a.trace w)
       (Jul23a.trace (snd (Jul23a.reader_of p w))))
    = [b0; b1; b2; b3; b4; c1; c2]
  ∧ fst (Jul23a.reader_of p w) = to_byte b4
  ∧ fst (Jul28a.reader_of p nd) = Jul28a.minus_one
  ∧ Jul28a.trace (snd (Jul28a.reader_of p nd)) =
      Jul28a.trace nd ++
      [NodeRequest (Scaling.request_of p nd) (Scaling.result_of p nd);
       SerialPrint (Scaling.error_label p);
       SerialPrintlnHex (Scaling.result_of p nd)]
  ∧ Binary32.neb (fst (Jul28a.reader_of p nd)) Jul28a.minus_one = false.
Proof.
  intros Hw Hl Hrx Hfail.
  assert (Hw' : Observe.next_write w (Jul23a.sizeof (Jul23a.frame_of p)) = 8)
    by (by rewrite sizeof_frame).
  rewrite reader_full, reader_is_transaction, reads_full by (done || lia).
  rewrite Hrx.
  rewrite reader_spec, Hfail.
  repeat split.
Qed.

(** C3 at a concrete run. *)
Lemma C3_witness :
  Observe.next_write Scenario.w_bad_crc 8 = 8
  ∧ Scaling.succeeded Nitrogen (Scenario.nd_failure 0xE3 0) = false
  ∧ fst (Jul23a.reader_of Nitrogen Scenario.w_bad_crc) = to_byte 0x47
  ∧ fst (Jul28a.reader_of Nitrogen (Scenario.nd_failure 0xE3 0))
    = Jul28a.minus_one.
Proof.
  split; [vm_compute; reflexivity|]. split; [vm_compute; reflexivity|].
  destruct (C3_crc_left_to_the_library Nitrogen Scenario.w_bad_crc
              (Scenario.nd_failure 0xE3 0) 0x01 0x03 0x02 0x00 0x47 0x00 0x00 [])
    as (_ & H2 & H3 & _); [vm_compute; reflexivity ..|].
  split; [exact H2|exact H3].
Defined.

(** C4.  For every raw register that a successful transaction delivers,
    a [uint16_t], the reading function returns the raw value times the
    factor of its parameter, rounded to binary32 (off by half a unit in
    the last place at most).  The factor is 0.01 for pH (the sketch
    divides by 100.0), 0.1 for Temperature (it divides by 10.0) and 1 for
    Nitrogen, Phosphorus, Potassium and Electroconductivity, where the
    result is the raw value itself; no offset is added.  Raw 725 gives
    pH 7.25, raw 250 gives 25.0 degrees and raw 320 gives nitrogen 320.0,
    all three exactly. *)
Theorem C4_scaling_of_every_register (p : ParameterId) (nd : Jul28a.node) :
  Scaling.succeeded p nd = true →
  let raw := Scaling.raw_of p nd in
  let v := fst (Jul28a.reader_of p nd) in
  0 ≤ raw < 65536
  ∧ v = Scaling.scale p raw
  ∧ Binary32.rounds ((raw # 1) * Scaling.factor p) v = true
  ∧ (if Qeq_bool (Scaling.factor p) 1
     then Qeq_bool (Binary32.to_Q v) (raw # 1) else true) = true
  ∧ Scaling.factor PH = (1 # 100)%Q
  ∧ Scaling.factor Temperature = (1 # 10)%Q
  ∧ (Binary32.to_Q (Scaling.scale PH 725) == 725 # 100)%Q
  ∧ (Binary32.to_Q (Scaling.scale Temperature 250) == 25 # 1)%Q
  ∧ (Binary32.to_Q (Scaling.scale Nitrogen 320) == 320 # 1)%Q
  ∧ (Binary32.to_Q (Scaling.scale p 0) == 0)%Q.
Proof.
  intros Hok. cbv zeta.
  pose proof (raw_of_range p nd) as Hr.
  rewrite reader_success by done.
  destruct (scaled_well_inv p (Scaling.raw_of p nd)) as (Hn & Hx & _).
  { by apply scaled_well_all. }
  split; [exact Hr|]. split; [reflexivity|]. split; [exact Hn|].
  split; [exact Hx|]. split; [reflexivity|]. split; [reflexivity|].
  split; [vm_compute; reflexivity|]. split; [vm_compute; reflexivity|].
  split; [vm_compute; reflexivity|].
  destruct p; vm_compute; reflexivity.
Qed.

(** C4 at a concrete run. *)
Lemma C4_witness :
  Scaling.succeeded PH (Scenario.nd_success 725) = true
  ∧ fst (Jul28a.reader_of PH (Scenario.nd_success 725))
    = Scaling.scale PH (Scaling.raw_of PH (Scenario.nd_success 725))
  ∧ Scaling.raw_of PH (Scenario.nd_success 725) = 725.
Proof.
  split; [vm_compute; reflexivity|].
  destruct (C4_scaling_of_every_register PH (Scenario.nd_success 725))
    as (_ & H & _); [vm_compute; reflexivity|].
  split; [exact H|vm_compute; reflexivity].
Defined.

(** C5, the code at the failing input.  The write of [phosphorous] is
    accepted and answered with the register 0x0047; the write of the next
    call, [nitrogen], reports 7 bytes.  [nitrogen] then reads nothing,
    reports nothing, leaves both pins high and returns the byte 0x47 that
    the earlier transaction left in [values[4]]: the caller receives it as
    the nitrogen reading. *)
Lemma C5_short_write_returns_a_reading :
  let w1 := snd (Jul23a.phosphorous Scenario.w_then_short) in
  let w2 := snd (Jul23a.nitrogen w1) in
  let events := Observe.events_since (Jul23a.trace w1) (Jul23a.trace w2) in
  fst (Jul23a.phosphorous Scenario.w_then_short) = 0x47
  ∧ Observe.writes_in events = [(Jul23a.nitro, 7)]
  ∧ Observe.reads_in events = []
  ∧ fst (Jul23a.nitrogen w1) = 0x47
  ∧ Jul23a.pins w2 !! Jul23a.DE = Some HIGH
  ∧ Jul23a.pins w2 !! Jul23a.RE = Some HIGH.
Proof. vm_compute. repeat split. Qed.

(** C6, as stated, fails on [sketch_jul23a].  On a link that never
    delivers a byte, [nitrogen] calls [mod.read] seven times, is answered
    -1 each time and returns 255 to its caller: a value made of no byte at
    all, and no timeout.  And of the nine bytes that answer the
    two-register request of [temperature], seven are read and two stay
    pending. *)
Lemma C6_counterexample :
  Observe.reads_in
    (Observe.events_since (Jul23a.trace Scenario.w_silent)
       (Jul23a.trace (snd (Jul23a.nitrogen Scenario.w_silent))))
    = [-1; -1; -1; -1; -1; -1; -1]
  ∧ fst (Jul23a.nitrogen Scenario.w_silent) = 255
  ∧ FrameCodec.response_length 2 = 9
  ∧ Jul23a.rx_results (snd (Jul23a.temperature Scenario.w_two_registers))
    = [0xDA; 0x02].
Proof. vm_compute. repeat split. Qed.

(** C6, amended.  After switching to receive, each reading function of
    [sketch_jul23a] for a single-register request calls [mod.read] exactly
    seven times, which is the length 5 + 2 × 1 of the answer, one after the
    other: the settle delay of 10 ms is the only delay of the transaction.
    A call that finds no byte is answered -1.  The function consumes seven
    pending bytes at most and returns the fifth answer narrowed to a byte:
    there is no timeout and no error outcome. *)
Theorem C6_seven_reads_without_timeout
    (p : ParameterId) (w : Jul23a.world) :
  p ≠ Temperature →
  Observe.next_write w 8 = 8 →
  length (Jul23a.values w) = 11%nat →
  let w' := snd (Jul23a.reader_of p w) in
  let events := Observe.events_since (Jul23a.trace w) (Jul23a.trace w') in
  let reads := Observe.reads_in events in
  reads = Observe.next_reads 7 (Jul23a.rx_results w)
  ∧ length reads = 7%nat
  ∧ Observe.delays_in events = [10]
  ∧ (∃ req, FrameCodec.request_of_frame (Jul23a.frame_of p) = Some req
            ∧ Z.of_nat (length reads)
              = FrameCodec.response_length (register_count req))
  ∧ Jul23a.rx_results w' = drop 7 (Jul23a.rx_results w)
  ∧ fst (Jul23a.reader_of p w) =
      to_byte (default (-1) (Jul23a.rx_results w !! 4%nat)).
Proof.
  intros Hp Hw Hl. cbv zeta.
  assert (Hw' : Observe.next_write w (Jul23a.sizeof (Jul23a.frame_of p)) = 8)
    by (by rewrite sizeof_frame).
  rewrite reader_full, reader_is_transaction, reads_full, delays_full
    by (done || lia).
  rewrite transaction_full by (done || lia).
  rewrite next_reads_length. cbn [snd Jul23a.rx_results].
  split; [done|]. split; [done|]. split; [done|]. split; [|done].
  destruct p; try done; eexists; (split; [reflexivity|]); reflexivity.
Qed.

(** C6 at a concrete run. *)
Lemma C6_witness :
  Nitrogen ≠ Temperature
  ∧ Observe.next_write Scenario.w_silent 8 = 8
  ∧ fst (Jul23a.reader_of Nitrogen Scenario.w_silent) =
      to_byte (default (-1) (Jul23a.rx_results Scenario.w_silent !! 4%nat)).
Proof.
  split; [discriminate|]. split; [vm_compute; reflexivity|].
  destruct (C6_seven_reads_without_timeout Nitrogen Scenario.w_silent)
    as (_ & _ & _ & _ & _ & H); [discriminate|vm_compute; reflexivity ..|].
  exact H.
Defined.

(** C7, as stated, fails on [sketch_jul23a] when the write reports 7
    bytes: the pins are never driven low again, so the switch back to
    receive happens no time, not once.  And the callback of
    [sketch_jul28a] that asserts the two pins waits for nothing. *)
Lemma C7_counterexample :
  let events :=
    Observe.events_since (Jul23a.trace Scenario.w_short)
      (Jul23a.trace (snd (Jul23a.nitrogen Scenario.w_short))) in
  Observe.direction_protocol events = false
  ∧ Observe.switches (Observe.monitor events) = 0%nat
  ∧ Observe.delays_in
      (Observe.events_since
         (Jul28a.trace (Scenario.nd_success 71))
         (Jul28a.trace (snd (Jul28a.preTransmission (Scenario.nd_success 71)))))
    = [].
Proof. vm_compute. repeat split. Qed.

(** C7, amended.  In [sketch_jul23a] every reading function drives DE and
    RE high and waits 10 ms before it writes the frame, and, when the
    write reports 8 bytes, drives DE and RE low exactly once, after the
    write and before the first read.  In [sketch_jul28a] the callbacks
    drive RE and DE high, and DE and RE low, with no delay of their own;
    when they run is the library's affair. *)
Theorem C7_direction_protocol_on_full_write
    (p : ParameterId) (w : Jul23a.world) (nd : Jul28a.node) :
  Observe.next_write w 8 = 8 →
  length (Jul23a.values w) = 11%nat →
  let events :=
    Observe.events_since (Jul23a.trace w)
      (Jul23a.trace (snd (Jul23a.reader_of p w))) in
  take 6 events =
    [DigitalWrite Jul23a.DE HIGH; DigitalWrite Jul23a.RE HIGH; Delay 10;
     ModWrite (Jul23a.frame_of p) 8;
     DigitalWrite Jul23a.DE LOW; DigitalWrite Jul23a.RE LOW]
  ∧ drop 6 events =
      Observe.read_events (Observe.next_reads 7 (Jul23a.rx_results w))
      ++ [SerialPrintln EmptyString]
  ∧ Observe.direction_protocol events = true
  ∧ Observe.switches (Observe.monitor events) = 1%nat
  ∧ Jul28a.trace (snd (Jul28a.preTransmission nd)) =
      Jul28a.trace nd ++
      [DigitalWrite Jul28a.MAX485_RE_PIN HIGH;
       DigitalWrite Jul28a.MAX485_DE_PIN HIGH]
  ∧ Jul28a.trace (snd (Jul28a.postTransmission nd)) =
      Jul28a.trace nd ++
      [DigitalWrite Jul28a.MAX485_DE_PIN LOW;
       DigitalWrite Jul28a.MAX485_RE_PIN LOW].
Proof.
  intros Hw Hl. cbv zeta.
  assert (Hw' : Observe.next_write w (Jul23a.sizeof (Jul23a.frame_of p)) = 8)
    by (by rewrite sizeof_frame).
  rewrite reader_is_transaction, events_full by (done || lia).
  unfold Observe.direction_protocol. rewrite monitor_full.
  rewrite sizeof_frame.
  replace (take (Z.to_nat 8) (Jul23a.frame_of p)) with (Jul23a.frame_of p)
    by (by destruct p).
  split; [done|]. split; [done|]. split; [done|]. split; [done|].
  unfold Jul28a.preTransmission, Jul28a.postTransmission, mbind,
    Jul28a.M_bind, Jul28a.digitalWrite.
  cbn [snd Jul28a.trace]. by rewrite <- !app_assoc.
Qed.

(** C7 at a concrete run. *)
Lemma C7_witness :
  Observe.next_write Scenario.w_answered 8 = 8
  ∧ Observe.direction_protocol
      (Observe.events_since (Jul23a.trace Scenario.w_answered)
         (Jul23a.trace (snd (Jul23a.reader_of Nitrogen Scenario.w_answered))))
    = true.
Proof.
  split; [vm_compute; reflexivity|].
  destruct (C7_direction_protocol_on_full_write Nitrogen Scenario.w_answered
              (Scenario.nd_success 71))
    as (_ & _ & H & _); [vm_compute; reflexivity ..|].
  exact H.
Defined.

(** C8.  The request that each reading function of [sketch_jul28a] hands
    to the library is for slave 1, function 0x03, the register of the
    parameter and one register.  The array of [sketch_jul23a] carries the
    same request, and is the frame built from it, for every parameter but
    Temperature, where the array asks for two registers from the same
    start register 0x12. *)
Theorem C8_requests_agree_except_temperature
    (p : ParameterId) (success : Z) (lib : nat → Request → Z * list Z) :
  let nd := Jul28a.setup success lib in
  let issued := mkRequest 1 0x03 (Jul28a.register_of p) 1 in
  Jul28a.requests (Jul28a.trace (snd (Jul28a.reader_of p nd))) = [issued]
  ∧ FrameCodec.request_of_frame (Jul23a.frame_of p) =
      Some (mkRequest 1 0x03 (Jul28a.register_of p)
                      (if bool_decide (p = Temperature) then 2 else 1))
  ∧ bool_decide (FrameCodec.request_of_frame (Jul23a.frame_of p) = Some issued)
      = negb (bool_decide (p = Temperature))
  ∧ bool_decide (FrameCodec.build_request issued = Jul23a.frame_of p)
      = negb (bool_decide (p = Temperature))
  ∧ Jul28a.register_of Temperature = 0x12.
Proof.
  cbv zeta. split.
  - rewrite reader_spec. cbn [snd Jul28a.trace Jul28a.setup].
    unfold Jul28a.requests. rewrite omap_app.
    unfold Scaling.request_of. cbn [Jul28a.slave Jul28a.setup].
    by destruct (Scaling.succeeded _ _).
  - destruct p; vm_compute; repeat split.
Qed.

(** C9.  The six reading functions share the one buffer [values].  When
    [mod.write] reports a count other than 8, a reading function performs
    no read, leaves the buffer and the pending bytes as they were, leaves
    both pins high (transmit mode) and returns [values[4]] as it found it.
    That byte is what the preceding transaction, of whichever parameter
    [q], stored there: the two calls return the same value and nothing in
    the result tells the second from a fresh reading. *)
Theorem C9_short_write_returns_stale_byte
    (p : ParameterId) (w : Jul23a.world) :
  Observe.next_write w 8 ≠ 8 →
  let w' := snd (Jul23a.reader_of p w) in
  let events := Observe.events_since (Jul23a.trace w) (Jul23a.trace w') in
  fst (Jul23a.reader_of p w) = Jul23a.value_at w 4
  ∧ Observe.reads_in events = []
  ∧ Jul23a.values w' = Jul23a.values w
  ∧ Jul23a.rx_results w' = Jul23a.rx_results w
  ∧ Jul23a.pins w' !! Jul23a.DE = Some HIGH
  ∧ Jul23a.pins w' !! Jul23a.RE = Some HIGH
  ∧ ∀ (q : ParameterId) (w0 : Jul23a.world),
      w = snd (Jul23a.reader_of q w0) →
      Observe.next_write w0 8 = 8 →
      length (Jul23a.values w0) = 11%nat →
      fst (Jul23a.reader_of p w) = fst (Jul23a.reader_of q w0).
Proof.
  intros Hw. cbv zeta.
  assert (Hw' : Observe.next_write w (Jul23a.sizeof (Jul23a.frame_of p)) ≠ 8)
    by (by rewrite sizeof_frame).
  rewrite reader_is_transaction, events_short, transaction_short by done.
  cbn [fst snd Jul23a.values Jul23a.rx_results Jul23a.pins].
  split; [done|]. split; [done|]. split; [done|]. split; [done|].
  split; [|split].
  - unfold Observe.transmit. rewrite lookup_insert_ne by done.
    apply lookup_insert_eq.
  - apply lookup_insert_eq.
  - intros q w0 -> Hw0 Hl0.
    assert (Hq : Observe.next_write w0 (Jul23a.sizeof (Jul23a.frame_of q)) = 8)
      by (by rewrite sizeof_frame).
    rewrite reader_is_transaction, transaction_full by (done || lia).
    cbn [fst snd]. unfold Jul23a.value_at. cbn [Jul23a.values].
    rewrite (store_lookup _ 0 _ 4), next_reads_lookup
      by (rewrite ?next_reads_length; simpl; lia).
    done.
Qed.

(** C9 at a concrete run. *)
Lemma C9_witness :
  Observe.next_write (snd (Jul23a.phosphorous Scenario.w_then_short)) 8 ≠ 8
  ∧ fst (Jul23a.reader_of Nitrogen
           (snd (Jul23a.phosphorous Scenario.w_then_short)))
    = Jul23a.value_at (snd (Jul23a.phosphorous Scenario.w_then_short)) 4.
Proof.
  assert (H : Observe.next_write
                (snd (Jul23a.phosphorous Scenario.w_then_short)) 8 ≠ 8)
    by (vm_compute; discriminate).
  split; [exact H|].
  exact (proj1 (C9_short_write_returns_stale_byte Nitrogen _ H)).
Defined.

(** C10.  A reading function of [sketch_jul28a] returns a value that
    differs from -1.0 exactly when the library reported [ku8MBSuccess]:
    a successful read returns a finite value that is not negative, a
    failed one returns the sentinel itself.  So the test [value != -1.0]
    of each block of [loop] is true exactly when the transaction
    succeeded. *)
Theorem C10_sentinel_separates_success_from_failure
    (p : ParameterId) (nd : Jul28a.node)
    (label unit_ failure : string) (pause : Z) :
  let v := fst (Jul28a.reader_of p nd) in
  Binary32.neb v Jul28a.minus_one = Scaling.succeeded p nd
  ∧ (if Scaling.succeeded p nd
     then Binary32.is_finite v && Qle_bool 0 (Binary32.to_Q v)
     else bool_decide (v = Jul28a.minus_one)) = true
  ∧ (Binary32.to_Q Jul28a.minus_one == -1 # 1)%Q
  ∧ fst (Jul28a.report (Jul28a.reader_of p) label unit_ failure pause nd)
    = Scaling.succeeded p nd.
Proof.
  cbv zeta. rewrite report_spec, reader_spec. cbn [fst].
  destruct (Scaling.succeeded p nd).
  - destruct (scaled_well_inv p (Scaling.raw_of p nd)) as (Hn & _ & Hp & Hs).
    { apply scaled_well_all, raw_of_range. }
    unfold Binary32.rounds in Hn. apply andb_true_iff in Hn as [Hf _].
    rewrite Hs, Hf, Hp. repeat split.
  - repeat split.
Qed.

(* ===================================================================== *)
(** * One reading function of sketch_jul23a, whatever the write reports *)
(* ===================================================================== *)

Section Jul23aRuns.

Import Jul23a Observe Runs.

Lemma take_frame (p : ParameterId) :
  take (Z.to_nat (sizeof (frame_of p))) (frame_of p) = frame_of p.
Proof. by destruct p. Qed.

(** Each reading function as one step from state to state. *)
Lemma reader_run (p : ParameterId) (w : world) :
  (7 ≤ length (values w))%nat →
  reader_of p w = (reader_value w, reader_world (frame_of p) w).
Proof.
  intros Hl. rewrite reader_is_transaction.
  unfold reader_value, reader_world, reader_events.
  destruct (decide (next_write w 8 = 8)) as [Hw|Hw].
  - rewrite transaction_full by (by rewrite ?sizeof_frame).
    rewrite take_frame, Hw. reflexivity.
  - rewrite transaction_short by (by rewrite sizeof_frame).
    rewrite take_frame, sizeof_frame. by rewrite app_nil_r.
Qed.

Lemma reader_events_of (p : ParameterId) (w : world) :
  (7 ≤ length (values w))%nat →
  events_of (reader_of p) w
    = reader_events (frame_of p) (next_write w 8) (rx_results w).
Proof.
  intros Hl. unfold events_of. rewrite reader_run by done.
  apply events_since_app.
Qed.

Lemma reader_world_length (frame : list Z) (w : world) :
  length (values (reader_world frame w)) = length (values w).
Proof.
  unfold reader_world. cbn [values].
  case_decide; [apply store_length|done].
Qed.

Lemma next_length (p : ParameterId) (w : world) :
  length (values (next p w)) = length (values w).
Proof. apply reader_world_length. Qed.

(** The trace only grows: by the events of the reading function, and by
    these and the pause for [next]. *)
Lemma reader_world_trace (frame : list Z) (w : world) :
  trace (reader_world frame w)
    = trace w ++ reader_events frame (next_write w 8) (rx_results w).
Proof. reflexivity. Qed.

Lemma next_trace (p : ParameterId) (w : world) :
  trace (next p w)
    = trace w ++ reader_events (frame_of p) (next_write w 8) (rx_results w)
              ++ [Delay 250].
Proof.
  unfold next, logged. cbn [trace].
  by rewrite reader_world_trace, <- app_assoc.
Qed.

Lemma delay_run (ms : Z) (w : world) :
  delay ms w = (tt, logged (Delay ms) w).
Proof. reflexivity. Qed.

Lemma emit_run (e : event) (w : world) : emit e w = (tt, logged e w).
Proof. reflexivity. Qed.

(** One pass of [loop] as one step from state to state. *)
Lemma loop_run (w : world) :
  length (values w) = 11%nat →
  loop w = (loop_values w, loop_world w).
Proof.
  intros Hl. unfold loop, mbind, M_bind.
  change nitrogen with (reader_of Nitrogen).
  change phosphorous with (reader_of Phosphorus).
  change potassium with (reader_of Potassium).
  change electroconductivity with (reader_of Electroconductivity).
  change pH with (reader_of PH).
  change temperature with (reader_of Temperature).
  rewrite (reader_run Nitrogen) by lia. cbv beta iota.
  rewrite delay_run. cbv beta iota. fold (next Nitrogen w).
  rewrite (reader_run Phosphorus) by (rewrite ?next_length; lia).
  cbv beta iota. rewrite delay_run. cbv beta iota.
  fold (next Phosphorus (next Nitrogen w)).
  rewrite (reader_run Potassium) by (rewrite ?next_length; lia).
  cbv beta iota. rewrite delay_run. cbv beta iota.
  fold (next Potassium (next Phosphorus (next Nitrogen w))).
  rewrite (reader_run Electroconductivity) by (rewrite ?next_length; lia).
  cbv beta iota. rewrite delay_run. cbv beta iota.
  fold (next Electroconductivity
          (next Potassium (next Phosphorus (next Nitrogen w)))).
  rewrite (reader_run PH) by (rewrite ?next_length; lia).
  cbv beta iota. rewrite delay_run. cbv beta iota.
  fold (next PH (next Electroconductivity
          (next Potassium (next Phosphorus (next Nitrogen w))))).
  fold (before_temperature w).
  rewrite (reader_run Temperature)
    by (unfold before_temperature; rewrite ?next_length; lia).
  cbv beta iota. rewrite !emit_run, delay_run. cbv beta iota.
  fold (after_temperature w).
  unfold mret, M_ret, loop_world, logged_all, loop_values, all_parameters.
  cbn [starts fmap list_fmap report_lines app foldl].
  reflexivity.
Qed.


End Jul23aRuns.

Section Jul23aPasses.

Import Jul23a Observe Runs.

(** What [logged], [logged_all] and [next] change: the trace alone. *)
Lemma logged_all_trace (evs : list event) :
  ∀ w, trace (logged_all evs w) = trace w ++ evs.
Proof.
  unfold logged_all.
  induction evs as [|e evs IH]; intros w; cbn [foldl].
  - by rewrite app_nil_r.
  - rewrite IH. unfold logged. cbn [trace]. by rewrite <- app_assoc.
Qed.

Lemma logged_all_rest (evs : list event) :
  ∀ w, values (logged_all evs w) = values w
       ∧ pins (logged_all evs w) = pins w
       ∧ tx_results (logged_all evs w) = tx_results w
       ∧ rx_results (logged_all evs w) = rx_results w.
Proof.
  unfold logged_all.
  induction evs as [|e evs IH]; intros w; cbn [foldl]; [done|].
  destruct (IH (logged e w)) as (-> & -> & -> & ->). done.
Qed.

(** The buffer after the receive loop: the bytes read, then what was
    there beyond them. *)
Lemma store_app (bs : list Z) :
  ∀ i (l : list Z), (i + length bs ≤ length l)%nat →
    store i bs l = take i l ++ (to_byte <$> bs) ++ drop (i + length bs) l.
Proof.
  induction bs as [|b bs IH]; intros i l Hl; cbn [store length fmap list_fmap].
  - rewrite Nat.add_0_r. cbn [app]. by rewrite take_drop.
  - cbn [length] in Hl. rewrite IH by (rewrite length_insert; lia).
    rewrite drop_insert_lt by lia.
    rewrite (take_S_r _ _ (to_byte b))
      by (apply list_lookup_insert_eq; lia).
    rewrite take_insert_ge by lia.
    rewrite <- app_assoc. cbn [app].
    by replace (S i + length bs)%nat with (i + S (length bs))%nat by lia.
Qed.

Lemma reader_world_values (frame : list Z) (w : world) :
  (7 ≤ length (values w))%nat →
  values (reader_world frame w) =
    (if decide (next_write w 8 = 8)
     then to_byte <$> next_reads 7 (rx_results w)
     else take 7 (values w))
    ++ drop 7 (values w).
Proof.
  intros Hl. unfold reader_world. cbn [values]. case_decide.
  - rewrite store_app by (rewrite next_reads_length; lia).
    by rewrite next_reads_length.
  - by rewrite take_drop.
Qed.

Lemma to_byte_is_byte (z : Z) : is_byte (to_byte z).
Proof. unfold is_byte, to_byte. apply Z.mod_pos_bound. lia. Qed.

(** One reading function keeps the buffer sound and returns a byte. *)
Lemma reader_world_sound (frame : list Z) (w : world) :
  sound w → sound (reader_world frame w) ∧ is_byte (reader_value w).
Proof.
  intros [Hl Hb]. split; [split|].
  - by rewrite reader_world_length.
  - rewrite reader_world_values by lia.
    apply Forall_app. split; [|by apply Forall_drop].
    case_decide; [|by apply Forall_take].
    apply Forall_fmap, Forall_true. intros z. apply to_byte_is_byte.
  - unfold reader_value. case_decide; [apply to_byte_is_byte|].
    unfold value_at. destruct (values w !! 4%nat) as [v|] eqn:Hv.
    + cbn [default]. exact (Forall_lookup_1 _ _ _ _ Hb Hv).
    + cbn [default]. unfold is_byte. lia.
Qed.

Lemma next_sound (p : ParameterId) (w : world) : sound w → sound (next p w).
Proof. intros Hs. by apply (reader_world_sound (frame_of p)) in Hs as [? _]. Qed.

End Jul23aPasses.

Section Jul23aLoop.

Import Jul23a Observe Runs.

Lemma bytes_printed_app (tr1 tr2 : list event) :
  bytes_printed (tr1 ++ tr2) = bytes_printed tr1 ++ bytes_printed tr2.
Proof. apply omap_app. Qed.

Lemma writes_in_app (tr1 tr2 : list event) :
  writes_in (tr1 ++ tr2) = writes_in tr1 ++ writes_in tr2.
Proof. apply omap_app. Qed.

Lemma pin_writes_app (tr1 tr2 : list event) :
  pin_writes (tr1 ++ tr2) = pin_writes tr1 ++ pin_writes tr2.
Proof. apply omap_app. Qed.

Lemma silent_read_events (rs : list Z) :
  writes_in (read_events rs) = [] ∧ bytes_printed (read_events rs) = []
  ∧ pin_writes (read_events rs) = [].
Proof.
  unfold writes_in, bytes_printed, pin_writes, read_events.
  induction rs as [|r rs (IH1 & IH2 & IH3)]; [done|]. simpl. done.
Qed.

(** What one reading function adds to the trace, kind by kind. *)
Lemma reader_events_delays (frame : list Z) (n : Z) (rx : list Z) :
  delays_in (reader_events frame n rx) = [10].
Proof.
  unfold reader_events. case_decide.
  - rewrite !delays_in_app, delays_in_read_events. reflexivity.
  - reflexivity.
Qed.

Lemma reader_events_writes (frame : list Z) (n : Z) (rx : list Z) :
  writes_in (reader_events frame n rx) = [(frame, n)].
Proof.
  destruct (silent_read_events (next_reads 7 rx)) as (Hw & _).
  unfold reader_events. case_decide.
  - rewrite !writes_in_app, Hw. reflexivity.
  - reflexivity.
Qed.

Lemma reader_events_prints (frame : list Z) (n : Z) (rx : list Z) :
  bytes_printed (reader_events frame n rx) = [].
Proof.
  destruct (silent_read_events (next_reads 7 rx)) as (_ & Hp & _).
  unfold reader_events. case_decide.
  - rewrite !bytes_printed_app, Hp. reflexivity.
  - reflexivity.
Qed.

Lemma reader_events_reads (frame : list Z) (n : Z) (rx : list Z) :
  reads_in (reader_events frame n rx)
    = if decide (n = 8) then next_reads 7 rx else [].
Proof.
  unfold reader_events. case_decide.
  - rewrite !reads_in_app, reads_in_read_events. cbn. by rewrite app_nil_r.
  - reflexivity.
Qed.

Lemma reader_events_pins (frame : list Z) (n : Z) (rx : list Z) :
  pin_writes (reader_events frame n rx) =
    [(DE, HIGH); (RE, HIGH)]
    ++ if decide (n = 8) then [(DE, LOW); (RE, LOW)] else [].
Proof.
  destruct (silent_read_events (next_reads 7 rx)) as (_ & _ & Hp).
  unfold reader_events. case_decide.
  - rewrite !pin_writes_app, Hp. reflexivity.
  - reflexivity.
Qed.

(** The trace after the reading functions of [ps], each with its pause. *)
Lemma readers_events_trace (ps : list ParameterId) :
  ∀ w, trace (foldl (fun w p => next p w) w ps)
       = trace w ++ readers_events ps w.
Proof.
  induction ps as [|p ps IH]; intros w; cbn [foldl readers_events].
  - by rewrite app_nil_r.
  - rewrite IH, next_trace. rewrite <- !app_assoc. reflexivity.
Qed.

(** The events of one pass of [loop]. *)
Lemma loop_events_of (w : world) :
  length (values w) = 11%nat → events_of loop w = loop_events w.
Proof.
  intros Hl. unfold events_of. rewrite loop_run by done. cbn [snd].
  unfold loop_world. rewrite logged_all_trace.
  unfold after_temperature. rewrite reader_world_trace.
  change (before_temperature w)
    with (foldl (fun w p => next p w) w
            [Nitrogen; Phosphorus; Potassium; Electroconductivity; PH]) at 1.
  rewrite readers_events_trace. unfold loop_events.
  rewrite <- !app_assoc. apply events_since_app.
Qed.

End Jul23aLoop.

Section Jul23aLoopFacts.

Import Jul23a Observe Runs.

Lemma next_tx (p : ParameterId) (w : world) :
  tx_results (next p w) = tail (tx_results w).
Proof. reflexivity. Qed.

Lemma next_writes_step (k : nat) (w : world) :
  next_writes (S k) (tx_results w)
    = next_write w 8 :: next_writes k (tail (tx_results w)).
Proof. unfold next_write. by destruct (tx_results w). Qed.

Lemma readers_events_delays (ps : list ParameterId) :
  ∀ w, delays_in (readers_events ps w) = ps ≫= (fun _ => [10; 250]).
Proof.
  induction ps as [|p ps IH]; intros w; [done|]. cbn [readers_events].
  rewrite delays_in_app, reader_events_delays.
  change (delays_in (Delay 250 :: ?l)) with (250 :: delays_in l).
  by rewrite IH.
Qed.

Lemma readers_events_prints (ps : list ParameterId) :
  ∀ w, bytes_printed (readers_events ps w) = [].
Proof.
  induction ps as [|p ps IH]; intros w; [done|]. cbn [readers_events].
  rewrite bytes_printed_app, reader_events_prints.
  change (bytes_printed (Delay 250 :: ?l)) with (bytes_printed l).
  by rewrite IH.
Qed.

Lemma readers_events_writes (ps : list ParameterId) :
  ∀ w, writes_in (readers_events ps w)
       = zip (frame_of <$> ps) (next_writes (length ps) (tx_results w)).
Proof.
  induction ps as [|p ps IH]; intros w; [done|].
  cbn [readers_events length fmap list_fmap].
  rewrite writes_in_app, reader_events_writes, next_writes_step.
  change (writes_in (Delay 250 :: ?l)) with (writes_in l).
  by rewrite IH, next_tx.
Qed.

Lemma nexts_tx (ps : list ParameterId) :
  ∀ w, tx_results (foldl (fun w p => next p w) w ps)
       = drop (length ps) (tx_results w).
Proof.
  induction ps as [|p ps IH]; intros w; cbn [foldl length]; [done|].
  rewrite IH, next_tx.
  destruct (tx_results w); cbn [tail drop]; by rewrite ?drop_nil.
Qed.

Lemma nexts_length (ps : list ParameterId) :
  ∀ w, length (values (foldl (fun w p => next p w) w ps))
       = length (values w).
Proof.
  induction ps as [|p ps IH]; intros w; cbn [foldl]; [done|].
  by rewrite IH, next_length.
Qed.

Lemma nexts_sound (ps : list ParameterId) :
  ∀ w, sound w → sound (foldl (fun w p => next p w) w ps).
Proof.
  induction ps as [|p ps IH]; intros w Hs; cbn [foldl]; [done|].
  by apply IH, next_sound.
Qed.

Lemma starts_sound (ps : list ParameterId) :
  ∀ w, sound w → Forall sound (starts ps w).
Proof.
  induction ps as [|p ps IH]; intros w Hs; cbn [starts]; constructor;
    [done|]. by apply IH, next_sound.
Qed.

(** With every write accepted, a reading function takes seven results off
    the stream and hands the stream on. *)
Lemma accepted_next_write (w : world) : accepted w → next_write w 8 = 8.
Proof.
  unfold accepted, next_write. destruct (tx_results w); [done|].
  by inversion 1.
Qed.

Lemma next_accepted (p : ParameterId) (w : world) :
  accepted w → accepted (next p w).
Proof.
  unfold accepted. rewrite next_tx. destruct (tx_results w); [done|].
  by inversion 1.
Qed.

Lemma next_rx (p : ParameterId) (w : world) :
  accepted w → rx_results (next p w) = drop 7 (rx_results w).
Proof.
  intros Ha. unfold next, logged, reader_world. cbn [rx_results].
  by rewrite decide_True by (by apply accepted_next_write).
Qed.

Lemma nexts_accepted (ps : list ParameterId) :
  ∀ w, accepted w →
       accepted (foldl (fun w p => next p w) w ps)
       ∧ rx_results (foldl (fun w p => next p w) w ps)
         = drop (7 * length ps) (rx_results w).
Proof.
  induction ps as [|p ps IH]; intros w Ha; cbn [foldl length]; [done|].
  destruct (IH (next p w)) as [Ha' Hrx]; [by apply next_accepted|].
  split; [done|]. rewrite Hrx, next_rx, drop_drop by done. f_equal. lia.
Qed.

Lemma starts_accepted (ps : list ParameterId) :
  ∀ w, accepted w →
    reader_value <$> starts ps w
    = (fun k => to_byte (default (-1) (rx_results w !! (7 * k + 4)%nat)))
      <$> seq 0 (length ps).
Proof.
  induction ps as [|p ps IH]; intros w Ha; [done|].
  cbn [starts length seq fmap list_fmap]. f_equal.
  - unfold reader_value. by rewrite decide_True by (by apply accepted_next_write).
  - change (list_fmap _ _ ?f ?l) with (f <$> l).
    rewrite IH by (by apply next_accepted).
    rewrite <- fmap_S_seq, <- list_fmap_compose.
    apply list_fmap_ext. intros _ k _. cbn [compose].
    rewrite next_rx, lookup_drop by done. do 3 f_equal. lia.
Qed.

Lemma next_reads_app (a b : nat) :
  ∀ rx, next_reads (a + b) rx = next_reads a rx ++ next_reads b (drop a rx).
Proof.
  induction a as [|a IH]; intros rx; [by rewrite drop_0|].
  cbn [Nat.add next_reads]. destruct rx as [|r rx].
  - by rewrite IH, !drop_nil.
  - by rewrite IH.
Qed.

Lemma readers_events_reads (ps : list ParameterId) :
  ∀ w, accepted w →
    reads_in (readers_events ps w)
    = next_reads (7 * length ps) (rx_results w).
Proof.
  induction ps as [|p ps IH]; intros w Ha; [done|].
  cbn [readers_events length].
  rewrite reads_in_app, reader_events_reads.
  rewrite decide_True by (by apply accepted_next_write).
  change (reads_in (Delay 250 :: ?l)) with (reads_in l).
  rewrite IH, next_rx by (done || by apply next_accepted).
  replace (7 * S (length ps))%nat with (7 + 7 * length ps)%nat by lia.
  by rewrite next_reads_app.
Qed.

End Jul23aLoopFacts.

(* ===================================================================== *)
(** * One pass of loop of sketch_jul28a *)
(* ===================================================================== *)

Section Jul28aLoop.

Import Binary32 Jul28a Scaling Runs28.

(** The test of a block is true exactly on success. *)
Lemma reader_float_neb (p : ParameterId) (nd : node) :
  neb (reader_float p nd) minus_one = succeeded p nd.
Proof.
  unfold reader_float. destruct (succeeded p nd); [|reflexivity].
  by destruct (scaled_well_inv p (raw_of p nd)
                 (scaled_well_all p _ (raw_of_range p nd))) as (_ & _ & _ & ->).
Qed.

(** One block as one step from state to state. *)
Lemma block_run (p : ParameterId) (nd : node) :
  block p nd = (succeeded p nd, block_node p nd).
Proof.
  unfold block, report, mbind, M_bind. rewrite reader_spec.
  fold (reader_float p nd). rewrite reader_float_neb.
  unfold block_node, block_events, reader_float, delay, emit, mret, M_ret.
  destruct (succeeded p nd);
    cbn [ku8MBSuccess slave response_buffer library transactions pins trace];
    rewrite <- ?app_assoc; reflexivity.
Qed.

Lemma emit_run28 (e : event) (nd : node) : emit e nd = (tt, logged e nd).
Proof. reflexivity. Qed.

(** One pass of [loop] as one step from state to state. *)
Lemma loop_run28 (nd : node) :
  loop nd = (flags Runs.all_parameters (logged header nd),
             after Runs.all_parameters (logged header nd)).
Proof.
  unfold loop, mbind, M_bind.
  change (report readNitrogen _ _ _ _) with (block Nitrogen).
  change (report readPhosphorous _ _ _ _) with (block Phosphorus).
  change (report readPotassium _ _ _ _) with (block Potassium).
  change (report readElectroconductivity _ _ _ _)
    with (block Electroconductivity).
  change (report readPH _ _ _ _) with (block PH).
  change (report readTemperature _ _ _ _) with (block Temperature).
  rewrite emit_run28. cbv beta iota. fold header.
  do 6 (rewrite block_run; cbv beta iota).
  reflexivity.
Qed.

Lemma after_env (ps : list ParameterId) :
  ∀ nd, ku8MBSuccess (after ps nd) = ku8MBSuccess nd
        ∧ slave (after ps nd) = slave nd
        ∧ library (after ps nd) = library nd
        ∧ pins (after ps nd) = pins nd
        ∧ transactions (after ps nd) = (length ps + transactions nd)%nat.
Proof.
  unfold after.
  induction ps as [|p ps IH]; intros nd; cbn [foldl length]; [done|].
  destruct (IH (block_node p nd)) as (-> & -> & -> & -> & ->).
  cbn [block_node ku8MBSuccess slave library pins transactions].
  repeat split. lia.
Qed.

Lemma after_trace (ps : list ParameterId) :
  ∀ nd, trace (after ps nd) = trace nd ++ blocks_events ps nd.
Proof.
  unfold after.
  induction ps as [|p ps IH]; intros nd; cbn [foldl blocks_events].
  - by rewrite app_nil_r.
  - rewrite IH.
    change (trace (block_node p nd)) with (trace nd ++ block_events p nd).
    by rewrite <- app_assoc.
Qed.

Lemma loop_events_of28 (nd : node) :
  events_of loop nd = header :: blocks_events Runs.all_parameters (logged header nd).
Proof.
  unfold events_of. rewrite loop_run28. cbn [snd].
  rewrite after_trace.
  change (trace (logged header nd)) with (trace nd ++ [header]).
  rewrite <- app_assoc. apply events_since_app.
Qed.

Lemma block_events_requests (p : ParameterId) (nd : node) :
  requests (block_events p nd) = [request_of p nd].
Proof. unfold block_events. by destruct (succeeded p nd). Qed.

Lemma block_events_delays (p : ParameterId) (nd : node) :
  Observe.delays_in (block_events p nd) = [pause_of p].
Proof. unfold block_events. by destruct (succeeded p nd). Qed.

Lemma block_events_floats (p : ParameterId) (nd : node) :
  floats_printed (block_events p nd)
    = if succeeded p nd then [scale p (raw_of p nd)] else [].
Proof. unfold block_events. by destruct (succeeded p nd). Qed.

Lemma blocks_requests (ps : list ParameterId) :
  ∀ nd, requests (blocks_events ps nd)
        = (fun p => mkRequest (slave nd) 0x03 (register_of p) 1) <$> ps.
Proof.
  induction ps as [|p ps IH]; intros nd; [done|]. cbn [blocks_events].
  unfold requests in *. rewrite omap_app.
  fold (requests (block_events p nd)). rewrite block_events_requests.
  by rewrite IH.
Qed.

Lemma blocks_delays (ps : list ParameterId) :
  ∀ nd, Observe.delays_in (blocks_events ps nd) = pause_of <$> ps.
Proof.
  induction ps as [|p ps IH]; intros nd; [done|]. cbn [blocks_events].
  by rewrite delays_in_app, block_events_delays, IH.
Qed.

Lemma scaled_is_reading (p : ParameterId) (nd : node) :
  reading (scale p (raw_of p nd)).
Proof.
  destruct (scaled_well_inv p (raw_of p nd)
              (scaled_well_all p _ (raw_of_range p nd))) as (Hn & _ & Hp & Hs).
  unfold rounds in Hn. apply andb_true_iff in Hn as [Hf _]. done.
Qed.

Lemma blocks_floats (ps : list ParameterId) :
  ∀ nd, Forall reading (floats_printed (blocks_events ps nd))
        ∧ length (floats_printed (blocks_events ps nd))
          = length (filter (eq true) (flags ps nd)).
Proof.
  unfold flags.
  induction ps as [|p ps IH]; intros nd; [by split|].
  cbn [blocks_events starts zip_with].
  unfold floats_printed in *. rewrite omap_app.
  fold (floats_printed (block_events p nd)). rewrite block_events_floats.
  destruct (IH (block_node p nd)) as [IH1 IH2].
  destruct (succeeded p nd).
  - rewrite filter_cons_True by done. cbn [app length]. split.
    + constructor; [apply scaled_is_reading|done].
    + by rewrite IH2.
  - rewrite filter_cons_False by done. by split.
Qed.

Lemma block_events_codes (p : ParameterId) (nd : node) :
  codes_printed (block_events p nd)
    = if succeeded p nd then [] else [result_of p nd].
Proof. unfold block_events. by destruct (succeeded p nd). Qed.

Lemma blocks_codes (ps : list ParameterId) :
  ∀ nd, Forall (fun c => 0 ≤ c < 256 ∧ c ≠ ku8MBSuccess nd)
               (codes_printed (blocks_events ps nd)).
Proof.
  induction ps as [|p ps IH]; intros nd; [constructor|].
  cbn [blocks_events]. unfold codes_printed in *. rewrite omap_app.
  fold (codes_printed (block_events p nd)). rewrite block_events_codes.
  apply Forall_app. split; [|apply (IH (block_node p nd))].
  unfold succeeded. destruct (Z.eqb_spec (result_of p nd) (ku8MBSuccess nd));
    constructor; [|constructor].
  split; [|done]. unfold result_of, to_byte. apply Z.mod_pos_bound. lia.
Qed.

End Jul28aLoop.

(* ===================================================================== *)
(** * Further properties of sketch_jul23a *)
(* ===================================================================== *)

(** X1.  A reading function only ever writes [values[0]] to [values[6]]:
    the buffer keeps its eleven entries and the last four stay as they
    were.  When the write reports 8 bytes the first seven entries become
    the seven read results, each narrowed to a byte; otherwise they stay
    too. *)
Theorem X1_buffer_after_a_reading (p : ParameterId) (w : Jul23a.world) :
  length (Jul23a.values w) = 11%nat →
  let w' := snd (Jul23a.reader_of p w) in
  length (Jul23a.values w') = 11%nat
  ∧ drop 7 (Jul23a.values w') = drop 7 (Jul23a.values w)
  ∧ take 7 (Jul23a.values w') =
      if decide (Observe.next_write w 8 = 8)
      then to_byte <$> Observe.next_reads 7 (Jul23a.rx_results w)
      else take 7 (Jul23a.values w).
Proof.
  intros Hl. cbv zeta. rewrite reader_run by lia. cbn [snd].
  rewrite reader_world_length, reader_world_values by lia.
  split; [done|].
  assert (Hlen : length (if decide (Observe.next_write w 8 = 8)
                         then to_byte <$> Observe.next_reads 7 (Jul23a.rx_results w)
                         else take 7 (Jul23a.values w)) = 7%nat).
  { case_decide.
    - by rewrite length_fmap, next_reads_length.
    - rewrite length_take. lia. }
  split.
  - by rewrite drop_app_length'.
  - by rewrite take_app_length'.
Qed.

(** X1 at a concrete run. *)
Lemma X1_witness :
  length (Jul23a.values Scenario.w_answered) = 11%nat
  ∧ drop 7 (Jul23a.values (snd (Jul23a.reader_of PH Scenario.w_answered)))
    = drop 7 (Jul23a.values Scenario.w_answered).
Proof.
  split; [vm_compute; reflexivity|].
  destruct (X1_buffer_after_a_reading PH Scenario.w_answered)
    as (_ & H & _); [vm_compute; reflexivity|].
  exact H.
Defined.

(** X2.  A reading function drives no pin but DE and RE.  It leaves both
    low when the write reported 8 bytes and both high otherwise, and every
    other pin at the level it had. *)
Theorem X2_pins_after_a_reading
    (p : ParameterId) (w : Jul23a.world) (k : Z) :
  length (Jul23a.values w) = 11%nat →
  k ≠ Jul23a.DE → k ≠ Jul23a.RE →
  let w' := snd (Jul23a.reader_of p w) in
  let level := if decide (Observe.next_write w 8 = 8) then LOW else HIGH in
  Jul23a.pins w' !! Jul23a.DE = Some level
  ∧ Jul23a.pins w' !! Jul23a.RE = Some level
  ∧ Jul23a.pins w' !! k = Jul23a.pins w !! k
  ∧ Forall (fun pv => fst pv = Jul23a.DE ∨ fst pv = Jul23a.RE)
           (Runs.pin_writes (Runs.events_of (Jul23a.reader_of p) w)).
Proof.
  intros Hl Hde Hre. cbv zeta.
  rewrite reader_events_of, reader_run, reader_events_pins by lia.
  cbn [snd]. unfold Runs.reader_world. cbn [Jul23a.pins].
  unfold Observe.receive, Observe.transmit.
  case_decide.
  - rewrite (lookup_insert_ne _ Jul23a.RE Jul23a.DE) by done.
    rewrite !lookup_insert_eq, !lookup_insert_ne by done.
    repeat split. repeat constructor; cbn [fst]; tauto.
  - rewrite (lookup_insert_ne _ Jul23a.RE Jul23a.DE) by done.
    rewrite !lookup_insert_eq, !lookup_insert_ne by done.
    repeat split. repeat constructor; cbn [fst]; tauto.
Qed.

(** X2 at a concrete run. *)
Lemma X2_witness :
  length (Jul23a.values Scenario.w_short) = 11%nat
  ∧ 13 ≠ Jul23a.DE ∧ 13 ≠ Jul23a.RE
  ∧ Jul23a.pins (snd (Jul23a.reader_of Nitrogen Scenario.w_short)) !! 13
    = Jul23a.pins Scenario.w_short !! 13.
Proof.
  split; [vm_compute; reflexivity|].
  split; [discriminate|]. split; [discriminate|].
  destruct (X2_pins_after_a_reading Nitrogen Scenario.w_short 13)
    as (_ & _ & H & _); [vm_compute; reflexivity|discriminate..|].
  exact H.
Defined.

(** X3.  When the write reports 8 bytes and the fifth [mod.read] finds no
    byte (fewer than five are pending, or the port answers -1), the
    reading function returns 255, the same value as for a fifth byte
    0xFF: the caller cannot tell a missing byte from that byte. *)
Theorem X3_missing_byte_reads_as_255
    (p : ParameterId) (w : Jul23a.world) :
  Observe.next_write w 8 = 8 →
  length (Jul23a.values w) = 11%nat →
  Jul23a.rx_results w !! 4%nat = None
  ∨ Jul23a.rx_results w !! 4%nat = Some (-1)
  ∨ Jul23a.rx_results w !! 4%nat = Some 255 →
  fst (Jul23a.reader_of p w) = 255
  ∧ Jul23a.value_at (snd (Jul23a.reader_of p w)) 4 = 255.
Proof.
  intros Hw Hl Hrx. rewrite reader_run by lia. cbn [fst snd].
  unfold Runs.reader_value, Jul23a.value_at.
  rewrite reader_world_values by lia. rewrite !decide_True by done.
  rewrite lookup_app_l by (rewrite length_fmap, next_reads_length; lia).
  rewrite list_lookup_fmap, next_reads_lookup by lia. cbn [fmap option_fmap option_map default].
  by destruct Hrx as [-> | [-> | ->]].
Qed.

(** X3 at a concrete run. *)
Lemma X3_witness :
  Observe.next_write Scenario.w_silent 8 = 8
  ∧ Jul23a.rx_results Scenario.w_silent !! 4%nat = None
  ∧ fst (Jul23a.reader_of Potassium Scenario.w_silent) = 255.
Proof.
  split; [vm_compute; reflexivity|]. split; [vm_compute; reflexivity|].
  destruct (X3_missing_byte_reads_as_255 Potassium Scenario.w_silent)
    as (H & _); [vm_compute; reflexivity| vm_compute; reflexivity|
                 left; vm_compute; reflexivity|].
  exact H.
Defined.

(** X4.  One pass of [loop] started with a buffer of eleven bytes leaves
    such a buffer, whatever the link does, and takes six readings, each a
    byte; the six numbers that it prints are these readings, in the order
    nitrogen, phosphorus, potassium, electroconductivity, pH,
    temperature. *)
Theorem X4_loop_takes_and_prints_six_bytes (w : Jul23a.world) :
  Runs.sound w →
  Runs.sound (snd (Jul23a.loop w))
  ∧ length (fst (Jul23a.loop w)) = 6%nat
  ∧ Forall Runs.is_byte (fst (Jul23a.loop w))
  ∧ Runs.bytes_printed (Runs.events_of Jul23a.loop w) = fst (Jul23a.loop w).
Proof.
  intros Hs. pose proof Hs as [Hl Hb].
  rewrite loop_events_of, loop_run by done. cbn [fst snd].
  split; [|split; [|split]].
  - unfold Runs.loop_world, Runs.sound.
    destruct (logged_all_rest
                (Runs.report_lines (Runs.loop_values w) ++ [Delay 2000])
                (Runs.after_temperature w)) as (-> & _).
    apply (reader_world_sound Jul23a.temp).
    by apply (nexts_sound [Nitrogen; Phosphorus; Potassium;
                           Electroconductivity; PH]).
  - reflexivity.
  - unfold Runs.loop_values. apply Forall_fmap.
    eapply Forall_impl; [by apply starts_sound|].
    intros w' Hs'. by apply (reader_world_sound Jul23a.temp).
  - unfold Runs.loop_events.
    rewrite !bytes_printed_app, readers_events_prints, reader_events_prints.
    reflexivity.
Qed.

(** X4 at a concrete run. *)
Lemma X4_witness :
  Runs.sound Scenario.w_then_short
  ∧ length (fst (Jul23a.loop Scenario.w_then_short)) = 6%nat.
Proof.
  assert (H : Runs.sound Scenario.w_then_short).
  { split; [vm_compute; reflexivity|].
    unfold Scenario.w_then_short, Jul23a.setup. cbn [Jul23a.values replicate].
    repeat constructor; lia. }
  split; [exact H|].
  exact (proj1 (proj2 (X4_loop_takes_and_prints_six_bytes _ H))).
Defined.

(** X5.  One pass of [loop] calls [mod.write] exactly six times, once with
    each of the six arrays in the order of the readings, whatever the
    calls report: a write cut short is not repeated and does not end the
    pass. *)
Theorem X5_loop_writes_each_array_once (w : Jul23a.world) :
  length (Jul23a.values w) = 11%nat →
  Observe.writes_in (Runs.events_of Jul23a.loop w)
    = zip [Jul23a.nitro; Jul23a.phos; Jul23a.pota; Jul23a.ec; Jul23a.ph;
           Jul23a.temp]
          (Runs.next_writes 6 (Jul23a.tx_results w))
  ∧ Jul23a.tx_results (snd (Jul23a.loop w)) = drop 6 (Jul23a.tx_results w).
Proof.
  intros Hl. rewrite loop_events_of, loop_run by done. cbn [snd]. split.
  - unfold Runs.loop_events.
    rewrite !writes_in_app, readers_events_writes, reader_events_writes.
    change (Runs.before_temperature w)
      with (foldl (fun w p => Runs.next p w) w
              [Nitrogen; Phosphorus; Potassium; Electroconductivity; PH]).
    unfold Observe.next_write. rewrite nexts_tx.
    cbn [length fmap list_fmap Jul23a.frame_of].
    destruct (Jul23a.tx_results w) as [|n1 [|n2 [|n3 [|n4 [|n5 [|n6 tx]]]]]];
      reflexivity.
  - unfold Runs.loop_world.
    destruct (logged_all_rest
                (Runs.report_lines (Runs.loop_values w) ++ [Delay 2000])
                (Runs.after_temperature w)) as (_ & _ & -> & _).
    unfold Runs.after_temperature, Runs.reader_world.
    cbn [Jul23a.tx_results].
    change (Runs.before_temperature w)
      with (foldl (fun w p => Runs.next p w) w
              [Nitrogen; Phosphorus; Potassium; Electroconductivity; PH]).
    rewrite nexts_tx. cbn [length].
    destruct (Jul23a.tx_results w) as [|n1 [|n2 [|n3 [|n4 [|n5 [|n6 tx]]]]]];
      reflexivity.
Qed.

(** X5 at a concrete run. *)
Lemma X5_witness :
  length (Jul23a.values Scenario.w_then_short) = 11%nat
  ∧ Jul23a.tx_results (snd (Jul23a.loop Scenario.w_then_short))
    = drop 6 (Jul23a.tx_results Scenario.w_then_short).
Proof.
  assert (H : length (Jul23a.values Scenario.w_then_short) = 11%nat)
    by (vm_compute; reflexivity).
  split; [exact H|].
  exact (proj2 (X5_loop_writes_each_array_once _ H)).
Defined.

(** X6.  One pass of [loop] waits the same whatever happens on the link:
    10 ms before each of the six writes, 250 ms between two readings and
    2000 ms at the end, 3310 ms in all.  Nothing waits for the answer of
    the sensor. *)
Theorem X6_loop_waits_the_same_whatever_happens (w : Jul23a.world) :
  length (Jul23a.values w) = 11%nat →
  Observe.delays_in (Runs.events_of Jul23a.loop w)
    = [10; 250; 10; 250; 10; 250; 10; 250; 10; 250; 10; 2000]
  ∧ foldr Z.add 0 (Observe.delays_in (Runs.events_of Jul23a.loop w)) = 3310.
Proof.
  intros Hl. rewrite loop_events_of by done.
  assert (H : Observe.delays_in (Runs.loop_events w)
              = [10; 250; 10; 250; 10; 250; 10; 250; 10; 250; 10; 2000]).
  { unfold Runs.loop_events.
    rewrite !delays_in_app, readers_events_delays, reader_events_delays.
    assert (Hr : ∀ vs, Observe.delays_in (Runs.report_lines vs) = []).
    { intros vs. by destruct vs as [|? [|? [|? [|? [|? [|? [|? ?]]]]]]]. }
    rewrite Hr. reflexivity. }
  rewrite H. split; reflexivity.
Qed.

(** X6 at a concrete run. *)
Lemma X6_witness :
  length (Jul23a.values Scenario.w_silent) = 11%nat
  ∧ foldr Z.add 0 (Observe.delays_in (Runs.events_of Jul23a.loop Scenario.w_silent))
    = 3310.
Proof.
  assert (H : length (Jul23a.values Scenario.w_silent) = 11%nat)
    by (vm_compute; reflexivity).
  split; [exact H|].
  exact (proj2 (X6_loop_waits_the_same_whatever_happens _ H)).
Defined.

(** X7.  When every write is accepted, one pass of [loop] takes 42 read
    results off the port, seven per reading function and none discarded
    in between, and its six readings are the results number 5, 12, 19,
    26, 33 and 40, each narrowed to a byte.  What the port holds beyond
    these 42 stays pending for the next pass: a byte too many or too few
    shifts every later reading. *)
Theorem X7_loop_reads_the_stream_in_sevens (w : Jul23a.world) :
  Runs.accepted w →
  length (Jul23a.values w) = 11%nat →
  fst (Jul23a.loop w)
    = (fun k => to_byte (default (-1) (Jul23a.rx_results w !! k)))
      <$> [4; 11; 18; 25; 32; 39]%nat
  ∧ Observe.reads_in (Runs.events_of Jul23a.loop w)
    = Observe.next_reads 42 (Jul23a.rx_results w)
  ∧ Jul23a.rx_results (snd (Jul23a.loop w)) = drop 42 (Jul23a.rx_results w).
Proof.
  intros Ha Hl. rewrite loop_events_of, loop_run by done. cbn [fst snd].
  destruct (nexts_accepted [Nitrogen; Phosphorus; Potassium;
                            Electroconductivity; PH] w Ha) as [Ha5 Hrx5].
  change (foldl (fun w p => Runs.next p w) w
            [Nitrogen; Phosphorus; Potassium; Electroconductivity; PH])
    with (Runs.before_temperature w) in Ha5, Hrx5.
  cbn [length Nat.mul Nat.add] in Hrx5.
  split; [|split].
  - unfold Runs.loop_values. rewrite starts_accepted by done. reflexivity.
  - unfold Runs.loop_events.
    rewrite !reads_in_app, readers_events_reads, reader_events_reads by done.
    rewrite decide_True by (by apply accepted_next_write).
    assert (Hr : ∀ vs, Observe.reads_in (Runs.report_lines vs) = []).
    { intros vs. by destruct vs as [|? [|? [|? [|? [|? [|? [|? ?]]]]]]]. }
    rewrite Hr, Hrx5. cbn [length].
    change (Observe.reads_in [Delay 2000]) with (@nil Z).
    cbn [app]. rewrite app_nil_r.
    change (7 * 5)%nat with 35%nat.
    by rewrite <- (next_reads_app 35 7).
  - unfold Runs.loop_world.
    destruct (logged_all_rest
                (Runs.report_lines (Runs.loop_values w) ++ [Delay 2000])
                (Runs.after_temperature w)) as (_ & _ & _ & ->).
    unfold Runs.after_temperature, Runs.reader_world. cbn [Jul23a.rx_results].
    rewrite decide_True by (by apply accepted_next_write).
    by rewrite Hrx5, drop_drop.
Qed.

(** X7 at a concrete run. *)
Lemma X7_witness :
  Runs.accepted Scenario.w_two_registers
  ∧ length (Jul23a.values Scenario.w_two_registers) = 11%nat
  ∧ Jul23a.rx_results (snd (Jul23a.loop Scenario.w_two_registers))
    = drop 42 (Jul23a.rx_results Scenario.w_two_registers).
Proof.
  assert (Ha : Runs.accepted Scenario.w_two_registers) by constructor.
  assert (Hl : length (Jul23a.values Scenario.w_two_registers) = 11%nat)
    by (vm_compute; reflexivity).
  split; [exact Ha|]. split; [exact Hl|].
  exact (proj2 (proj2 (X7_loop_reads_the_stream_in_sevens _ Ha Hl))).
Defined.

(* ===================================================================== *)
(** * Further properties of sketch_jul28a *)
(* ===================================================================== *)

(** X8.  One pass of [loop] hands the library exactly six requests, for
    the registers 0x1E, 0x1F, 0x20, 0x15, 0x06 and 0x12 in this order, one
    register each, whatever the library answers: a failed transaction is
    not repeated and does not end the pass.  The test of each block is
    true exactly when its own transaction succeeded, and the pass pauses
    1000 ms after each of the first five blocks and 2000 ms after the
    last. *)
Theorem X8_loop_asks_six_registers_whatever_fails (nd : Jul28a.node) :
  fst (Jul28a.loop nd)
    = [Runs28.flag nd 0 Nitrogen; Runs28.flag nd 1 Phosphorus;
       Runs28.flag nd 2 Potassium; Runs28.flag nd 3 Electroconductivity;
       Runs28.flag nd 4 PH; Runs28.flag nd 5 Temperature]
  ∧ Jul28a.requests (Runs28.events_of Jul28a.loop nd)
    = (fun r => mkRequest (Jul28a.slave nd) 0x03 r 1)
      <$> [0x1E; 0x1F; 0x20; 0x15; 0x06; 0x12]
  ∧ Jul28a.transactions (snd (Jul28a.loop nd))
    = (6 + Jul28a.transactions nd)%nat
  ∧ Observe.delays_in (Runs28.events_of Jul28a.loop nd)
    = [1000; 1000; 1000; 1000; 1000; 2000].
Proof.
  rewrite loop_events_of28, loop_run28. cbn [fst snd].
  split; [reflexivity|]. split; [|split].
  - change (Jul28a.requests (Runs28.header :: ?l)) with (Jul28a.requests l).
    rewrite blocks_requests. reflexivity.
  - by destruct (after_env Runs.all_parameters (Runs28.logged Runs28.header nd))
      as (_ & _ & _ & _ & ->).
  - change (Observe.delays_in (Runs28.header :: ?l))
      with (Observe.delays_in l).
    rewrite blocks_delays. reflexivity.
Qed.

(** X9.  Every number that one pass of [loop] prints as a reading is
    finite, not negative and different from the sentinel -1.0, and the
    pass prints as many of them as its transactions succeeded: a failed
    read is never shown as a value.  Every error code that it prints is a
    byte other than [ku8MBSuccess]. *)
Theorem X9_loop_prints_only_readings (nd : Jul28a.node) :
  Forall Runs28.reading
         (Runs28.floats_printed (Runs28.events_of Jul28a.loop nd))
  ∧ length (Runs28.floats_printed (Runs28.events_of Jul28a.loop nd))
    = length (filter (eq true) (fst (Jul28a.loop nd)))
  ∧ Forall (fun c => 0 ≤ c < 256 ∧ c ≠ Jul28a.ku8MBSuccess nd)
           (Runs28.codes_printed (Runs28.events_of Jul28a.loop nd)).
Proof.
  rewrite loop_events_of28, loop_run28. cbn [fst].
  change (Runs28.floats_printed (Runs28.header :: ?l))
    with (Runs28.floats_printed l).
  change (Runs28.codes_printed (Runs28.header :: ?l))
    with (Runs28.codes_printed l).
  destruct (blocks_floats Runs.all_parameters (Runs28.logged Runs28.header nd))
    as [H1 H2].
  split; [exact H1|]. split; [exact H2|].
  apply (blocks_codes Runs.all_parameters (Runs28.logged Runs28.header nd)).
Qed.

(** X10.  [preTransmission] leaves DE and RE high and [postTransmission]
    leaves them low; neither touches another pin.  Run one after the
    other from receive mode, the state that [setup] leaves, they restore
    every pin. *)
Theorem X10_callbacks_switch_and_restore (nd : Jul28a.node) (k : Z) :
  k ≠ Jul28a.MAX485_DE_PIN → k ≠ Jul28a.MAX485_RE_PIN →
  Jul28a.pins nd !! Jul28a.MAX485_DE_PIN = Some LOW →
  Jul28a.pins nd !! Jul28a.MAX485_RE_PIN = Some LOW →
  let nd1 := snd (Jul28a.preTransmission nd) in
  let nd2 := snd (Jul28a.postTransmission nd1) in
  Jul28a.pins nd1 !! Jul28a.MAX485_DE_PIN = Some HIGH
  ∧ Jul28a.pins nd1 !! Jul28a.MAX485_RE_PIN = Some HIGH
  ∧ Jul28a.pins nd1 !! k = Jul28a.pins nd !! k
  ∧ Jul28a.pins nd2 = Jul28a.pins nd
  ∧ Jul28a.response_buffer nd2 = Jul28a.response_buffer nd
  ∧ Jul28a.transactions nd2 = Jul28a.transactions nd.
Proof.
  intros Hde Hre Hd Hr. cbv zeta.
  unfold Jul28a.preTransmission, Jul28a.postTransmission, mbind,
    Jul28a.M_bind, Jul28a.digitalWrite.
  cbn [snd Jul28a.pins Jul28a.response_buffer Jul28a.transactions].
  assert (Jul28a.MAX485_DE_PIN ≠ Jul28a.MAX485_RE_PIN) by done.
  split; [by simplify_map_eq|]. split; [by simplify_map_eq|].
  split; [by simplify_map_eq|]. split; [|done].
  apply map_eq. intros i.
  destruct (decide (i = Jul28a.MAX485_RE_PIN)) as [->|];
    [by simplify_map_eq|].
  destruct (decide (i = Jul28a.MAX485_DE_PIN)) as [->|];
    by simplify_map_eq.
Qed.

(** X10 at the state that [setup] leaves. *)
Lemma X10_witness :
  Jul28a.pins (Scenario.nd_success 71) !! Jul28a.MAX485_DE_PIN = Some LOW
  ∧ Jul28a.pins (Scenario.nd_success 71) !! Jul28a.MAX485_RE_PIN = Some LOW
  ∧ Jul28a.pins
      (snd (Jul28a.postTransmission
              (snd (Jul28a.preTransmission (Scenario.nd_success 71)))))
    = Jul28a.pins (Scenario.nd_success 71).
Proof.
  split; [vm_compute; reflexivity|]. split; [vm_compute; reflexivity|].
  destruct (X10_callbacks_switch_and_restore (Scenario.nd_success 71) 13)
    as (_ & _ & _ & H & _);
    [discriminate | discriminate | vm_compute; reflexivity ..|].
  exact H.
Defined.

(** X11.  For Nitrogen, Phosphorus, Potassium and Electroconductivity the
    conversion to [float] loses nothing: two successful readings are equal
    only if the two registers are, and they compare as the registers
    do. *)
Theorem X11_unscaled_readings_keep_the_register
    (p : ParameterId) (nd1 nd2 : Jul28a.node) :
  p ≠ PH → p ≠ Temperature →
  Scaling.succeeded p nd1 = true →
  Scaling.succeeded p nd2 = true →
  let v1 := fst (Jul28a.reader_of p nd1) in
  let v2 := fst (Jul28a.reader_of p nd2) in
  (v1 = v2 ↔ Scaling.raw_of p nd1 = Scaling.raw_of p nd2)
  ∧ ((Binary32.to_Q v1 <= Binary32.to_Q v2)%Q
     ↔ Scaling.raw_of p nd1 ≤ Scaling.raw_of p nd2).
Proof.
  intros Hp1 Hp2 H1 H2. cbv zeta. rewrite !reader_success by done.
  assert (Hx : ∀ nd, (Binary32.to_Q (Scaling.scale p (Scaling.raw_of p nd))
                      == Scaling.raw_of p nd # 1)%Q).
  { intros nd.
    destruct (scaled_well_inv p (Scaling.raw_of p nd)
                (scaled_well_all p _ (raw_of_range p nd))) as (_ & Hx & _).
    apply Qeq_bool_iff. by destruct p. }
  assert (Hle : (Binary32.to_Q (Scaling.scale p (Scaling.raw_of p nd1))
                 <= Binary32.to_Q (Scaling.scale p (Scaling.raw_of p nd2)))%Q
                ↔ Scaling.raw_of p nd1 ≤ Scaling.raw_of p nd2).
  { rewrite !Hx. unfold Qle. cbn [Qnum Qden]. lia. }
  split; [|exact Hle]. split.
  - intros Heq.
    assert (Scaling.raw_of p nd1 ≤ Scaling.raw_of p nd2) by (apply Hle; rewrite Heq; apply Qle_refl).
    assert (Scaling.raw_of p nd2 ≤ Scaling.raw_of p nd1).
    { assert (Hq : (Binary32.to_Q (Scaling.scale p (Scaling.raw_of p nd2))
                    <= Binary32.to_Q (Scaling.scale p (Scaling.raw_of p nd1)))%Q)
        by (rewrite Heq; apply Qle_refl).
      rewrite !Hx in Hq. unfold Qle in Hq. cbn [Qnum Qden] in Hq. lia. }
    lia.
  - by intros ->.
Qed.

(** X11 at a concrete run. *)
Lemma X11_witness :
  Scaling.succeeded Potassium (Scenario.nd_success 320) = true
  ∧ Scaling.succeeded Potassium (Scenario.nd_success 71) = true
  ∧ (fst (Jul28a.reader_of Potassium (Scenario.nd_success 320))
     = fst (Jul28a.reader_of Potassium (Scenario.nd_success 71))
     ↔ Scaling.raw_of Potassium (Scenario.nd_success 320)
       = Scaling.raw_of Potassium (Scenario.nd_success 71)).
Proof.
  split; [vm_compute; reflexivity|]. split; [vm_compute; reflexivity|].
  destruct (X11_unscaled_readings_keep_the_register Potassium
              (Scenario.nd_success 320) (Scenario.nd_success 71))
    as (H & _); [discriminate | discriminate | vm_compute; reflexivity ..|].
  exact H.
Defined.

(* ===================================================================== *)
(** * The shared buffer across calls and passes *)
(* ===================================================================== *)

Section Jul23aMemory.

Import Jul23a Observe Runs.

(** After a reading function, [values[4]] holds the value it returned,
    whatever its write reported. *)
Lemma reader_world_value (frame : list Z) (w : world) :
  length (values w) = 11%nat →
  value_at (reader_world frame w) 4 = reader_value w.
Proof.
  intros Hl. unfold value_at, reader_value.
  rewrite reader_world_values by lia. case_decide.
  - rewrite lookup_app_l by (rewrite length_fmap, next_reads_length; lia).
    by rewrite list_lookup_fmap, next_reads_lookup by lia.
  - by rewrite take_drop.
Qed.

Lemma reader_world_pins (frame : list Z) (w : world) (k : Z) :
  k ≠ DE → k ≠ RE → pins (reader_world frame w) !! k = pins w !! k.
Proof.
  intros Hde Hre. unfold reader_world, receive, transmit. cbn [pins].
  case_decide; by rewrite !lookup_insert_ne by done.
Qed.

Lemma nexts_pins (ps : list ParameterId) (k : Z) :
  k ≠ DE → k ≠ RE →
  ∀ w, pins (foldl (fun w p => next p w) w ps) !! k = pins w !! k.
Proof.
  intros Hde Hre.
  induction ps as [|p ps IH]; intros w; cbn [foldl]; [done|].
  rewrite IH. by apply reader_world_pins.
Qed.

Lemma loop_world_pins (w : world) (k : Z) :
  k ≠ DE → k ≠ RE → pins (loop_world w) !! k = pins w !! k.
Proof.
  intros Hde Hre. unfold loop_world.
  destruct (logged_all_rest
              (report_lines (loop_values w) ++ [Delay 2000])
              (after_temperature w)) as (_ & -> & _).
  unfold after_temperature. rewrite reader_world_pins by done.
  by apply (nexts_pins [Nitrogen; Phosphorus; Potassium;
                        Electroconductivity; PH]).
Qed.

Lemma setup_sound (tx rx : list Z) : sound (setup tx rx).
Proof.
  split; [reflexivity|]. unfold setup. cbn [values replicate].
  repeat constructor; lia.
Qed.

Lemma passes_sound (n : nat) (w : world) : sound w → sound (passes n w).
Proof.
  intros Hs.
  induction n as [|n IH]; cbn [passes]; [done|].
  destruct IH as [Hl Hb]. rewrite loop_run by done. cbn [snd].
  unfold loop_world, sound.
  destruct (logged_all_rest
              (report_lines (loop_values (passes n w)) ++ [Delay 2000])
              (after_temperature (passes n w)))
    as (-> & _).
  apply (reader_world_sound temp).
  by apply (nexts_sound [Nitrogen; Phosphorus; Potassium;
                         Electroconductivity; PH]).
Qed.

Lemma passes_pins (n : nat) (w : world) (k : Z) :
  sound w → k ≠ DE → k ≠ RE → pins (passes n w) !! k = pins w !! k.
Proof.
  intros Hs Hde Hre.
  induction n as [|n IH]; [done|]. cbn [passes].
  destruct (passes_sound n w Hs) as [Hl _].
  rewrite loop_run by done. cbn [snd].
  by rewrite loop_world_pins.
Qed.

End Jul23aMemory.

(** X12.  After a reading function [values[4]] holds the value that it
    returned, whatever its write reported.  So a reading function whose
    write reports a count other than 8 returns the value of the call
    before it, directly or after the pause of [loop], whether that call
    had read it or had itself repeated an older one. *)
Theorem X12_short_write_repeats_the_previous_reading
    (p q : ParameterId) (w : Jul23a.world) :
  length (Jul23a.values w) = 11%nat →
  let w1 := snd (Jul23a.reader_of q w) in
  let w2 := snd (Jul23a.delay 250 w1) in
  Observe.next_write w1 8 ≠ 8 →
  Jul23a.value_at w1 4 = fst (Jul23a.reader_of q w)
  ∧ fst (Jul23a.reader_of p w1) = fst (Jul23a.reader_of q w)
  ∧ fst (Jul23a.reader_of p w2) = fst (Jul23a.reader_of q w).
Proof.
  intros Hl. cbv zeta. intros Hw.
  rewrite (reader_run q w) in * by lia. cbn [fst snd] in *.
  set (w1 := Runs.reader_world (Jul23a.frame_of q) w) in *.
  assert (Hl1 : length (Jul23a.values w1) = 11%nat)
    by (unfold w1; by rewrite reader_world_length).
  assert (Hv : Jul23a.value_at w1 4 = Runs.reader_value w)
    by (by apply reader_world_value).
  assert (Hs : Runs.reader_value w1 = Jul23a.value_at w1 4)
    by (unfold Runs.reader_value; by rewrite decide_False).
  split; [exact Hv|]. split.
  - rewrite reader_run by lia. cbn [fst]. by rewrite Hs.
  - rewrite delay_run. cbn [snd].
    rewrite reader_run by (cbn [Runs.logged Jul23a.values]; lia).
    cbn [fst].
    change (Runs.reader_value (Runs.logged (Delay 250) w1))
      with (Runs.reader_value w1).
    by rewrite Hs.
Qed.

(** X12 at a concrete run. *)
Lemma X12_witness :
  length (Jul23a.values Scenario.w_then_short) = 11%nat
  ∧ Observe.next_write
      (snd (Jul23a.reader_of Nitrogen Scenario.w_then_short)) 8 ≠ 8
  ∧ fst (Jul23a.reader_of Phosphorus
           (snd (Jul23a.reader_of Nitrogen Scenario.w_then_short)))
    = fst (Jul23a.reader_of Nitrogen Scenario.w_then_short).
Proof.
  assert (Hl : length (Jul23a.values Scenario.w_then_short) = 11%nat)
    by (vm_compute; reflexivity).
  assert (Hw : Observe.next_write
                 (snd (Jul23a.reader_of Nitrogen Scenario.w_then_short)) 8 ≠ 8)
    by (vm_compute; discriminate).
  split; [exact Hl|]. split; [exact Hw|].
  exact (proj1 (proj2 (X12_short_write_repeats_the_previous_reading
                         Phosphorus Nitrogen Scenario.w_then_short Hl Hw))).
Defined.

(** X13.  However many passes of [loop] have run since [setup] and
    whatever the link did, the buffer still has its eleven entries, all
    bytes; the next pass takes six readings, all bytes; and no pin other
    than DE and RE has ever been driven. *)
Theorem X13_every_pass_from_setup
    (n : nat) (tx rx : list Z) (k : Z) :
  k ≠ Jul23a.DE → k ≠ Jul23a.RE →
  let w := Runs.passes n (Jul23a.setup tx rx) in
  Runs.sound w
  ∧ length (fst (Jul23a.loop w)) = 6%nat
  ∧ Forall Runs.is_byte (fst (Jul23a.loop w))
  ∧ Jul23a.pins w !! k = None.
Proof.
  intros Hde Hre. cbv zeta.
  pose proof (passes_sound n _ (setup_sound tx rx)) as Hs.
  split; [exact Hs|].
  pose proof Hs as [Hl _]. rewrite loop_run by done. cbn [fst].
  split; [reflexivity|]. split.
  - unfold Runs.loop_values. apply Forall_fmap.
    eapply Forall_impl; [by apply starts_sound|].
    intros w' Hs'. by apply (reader_world_sound Jul23a.temp).
  - rewrite passes_pins by (done || apply setup_sound). reflexivity.
Qed.

(** X13 at a concrete run. *)
Lemma X13_witness :
  13 ≠ Jul23a.DE ∧ 13 ≠ Jul23a.RE
  ∧ Jul23a.pins (Runs.passes 2 (Jul23a.setup [8; 7] [1; 3; 2; 0; 71])) !! 13
    = None.
Proof.
  split; [discriminate|]. split; [discriminate|].
  destruct (X13_every_pass_from_setup 2 [8; 7] [1; 3; 2; 0; 71] 13)
    as (_ & _ & _ & H); [discriminate | discriminate |].
  exact H.
Defined.
